(** * go-svchelper: the Windows service wrapper, embedded and verified

    The development follows the three Go files of the package:

    - [service.go]: [ServiceWrapper], [Execute] (the SCM command loop) and
      [RunService];
    - the CLI file: [usage], [ManageService], [StartService],
      [ControlService];
    - the install file: [ExePath], [InstallService], [RemoveService].

    [Execute] runs concurrently with the user task and with the SCM
    dispatcher.  It is embedded as a reactive machine: a program point
    ([Pc]) per place where the Go code waits for an answer of its
    environment (the return of Schedule, the select, the end of
    [wg.Wait()]), an [Input] per thing the environment can hand back there,
    and the list of [Event]s the code performs before it waits again.  The
    sends on [changes], which the dispatcher takes, are events of the
    reaction they occur in, not program points: the facts proved are about
    the order of the events and about executions that have returned.

    The management operations are sequential glue around calls into
    [golang.org/x/sys/windows/svc/mgr].  That library is not part of the
    package; every call into it is answered by an environment ([Env]), and
    the operations are functions in a small state monad that records the
    calls made and their outcome. *)

From Stdlib Require Import ZArith NArith List String Ascii Bool Lia.
From Stdlib Require Import DecimalString.
Import ListNotations.

Local Open Scope list_scope.
Local Open Scope string_scope.

(** ** Go values *)

(** A Go [error] is carried by its message; [nil] is [None]. *)
Definition error := string.

(** [fmt]'s [%d] on an unsigned integer. *)
Definition fmt_d (n : N) : string := NilEmpty.string_of_uint (N.to_uint n).

(** [time.Duration] counts nanoseconds. *)
Module time.
Definition Duration := Z.
Definition Millisecond : Duration := 1000000%Z.
Definition Second : Duration := 1000000000%Z.
End time.

(** ** Declarations of [golang.org/x/sys/windows/svc] used by the package *)

Module svc.

(** [svc.State], [svc.Cmd] and [svc.Accepted] are [uint32]; the package
    only compares and prints them, and or-s two [Accepted] flags. *)
Definition State := N.
Definition Cmd := N.
Definition Accepted := N.

Definition Stopped : State := 1%N.
Definition StartPending : State := 2%N.
Definition StopPending : State := 3%N.
Definition Running : State := 4%N.
Definition ContinuePending : State := 5%N.
Definition PausePending : State := 6%N.
Definition Paused : State := 7%N.

Definition Stop : Cmd := 1%N.
Definition Pause : Cmd := 2%N.
Definition Continue : Cmd := 3%N.
Definition Interrogate : Cmd := 4%N.
Definition Shutdown : Cmd := 5%N.

Definition AcceptStop : Accepted := 1%N.
Definition AcceptPauseAndContinue : Accepted := 2%N.
Definition AcceptShutdown : Accepted := 4%N.

Record Status := {
  State_ : State;
  Accepts : Accepted;
  CheckPoint : N;
  WaitHint : N;
  ProcessId : N;
  Win32ExitCode : N;
  ServiceSpecificExitCode : N
}.

(** The Go composite literal [svc.Status{State: s, Accepts: a}]: the
    fields left out are zero. *)
Definition mkStatus (s : State) (a : Accepted) : Status :=
  {| State_ := s; Accepts := a; CheckPoint := 0; WaitHint := 0;
     ProcessId := 0; Win32ExitCode := 0; ServiceSpecificExitCode := 0 |}.

Record ChangeRequest := {
  Cmd_ : Cmd;
  EventType : N;
  EventData : N;
  CurrentStatus : Status;
  Context : N
}.

(** [%d] applied to the structs: the fields in braces, blank-separated. *)
Definition fmt_d_Status (s : Status) : string :=
  "{" ++ fmt_d (State_ s) ++ " " ++ fmt_d (Accepts s) ++ " "
      ++ fmt_d (CheckPoint s) ++ " " ++ fmt_d (WaitHint s) ++ " "
      ++ fmt_d (ProcessId s) ++ " " ++ fmt_d (Win32ExitCode s) ++ " "
      ++ fmt_d (ServiceSpecificExitCode s) ++ "}".

Definition fmt_d_ChangeRequest (c : ChangeRequest) : string :=
  "{" ++ fmt_d (Cmd_ c) ++ " " ++ fmt_d (EventType c) ++ " "
      ++ fmt_d (EventData c) ++ " " ++ fmt_d_Status (CurrentStatus c)
      ++ " " ++ fmt_d (Context c) ++ "}".

End svc.

(** ** [service.go] *)

(** The [service] field of the Go struct holds the user task; here the task
    is the environment of [Execute] (see [Input]). *)
Record ServiceWrapper := {
  serviceName : string;
  serviceDisplayName : string;
  serviceDescription : string;
  useExePathAsWorkingDirectory : bool
}.

Module Exec.

(** What [Execute] does, in program order. *)
Inductive Event :=
| Send (s : svc.Status)               (* changes <- s *)
| ScheduleRet (err : option error)    (* sw.service.Schedule(ctx, wg, cancel) returned *)
| LogError (eid : N) (msg : string)   (* elog.Error *)
| LogInfo (eid : N) (msg : string)    (* elog.Info *)
| Cancel                              (* cancel() *)
| Waited                              (* wg.Wait() returned *)
| CtxDone                             (* select took <-ctx.Done() *)
| Recv (c : svc.ChangeRequest)        (* select took c := <-r *)
| Sleep (d : time.Duration)           (* time.Sleep *)
| Return (ssec : bool) (errno : N).

(** What the environment hands to [Execute] where it blocks. *)
Inductive Input :=
| InSchedule (err : option error)     (* the result of Schedule *)
| InWaited                            (* the wait group reached zero *)
| InDone                              (* ctx.Done() was ready and selected *)
| InReq (c : svc.ChangeRequest).      (* a request on r was selected *)

(** The places where [Execute] blocks, and its end. *)
Inductive Pc :=
| PSchedule                           (* line 70, in Schedule *)
| PWaitFail                           (* line 73, wg.Wait() after a failed Schedule *)
| PSelect                             (* line 80, the select of the loop *)
| PWaitDone                           (* line 83, wg.Wait() after ctx.Done() *)
| PWaitStop                           (* line 99, wg.Wait() after Stop/Shutdown *)
| PReturned (ssec : bool) (errno : N).

Definition cmdsAccepted : svc.Accepted :=
  N.lor svc.AcceptStop svc.AcceptShutdown.

Definition is_stop (c : svc.ChangeRequest) : bool :=
  (svc.Cmd_ c =? svc.Stop)%N || (svc.Cmd_ c =? svc.Shutdown)%N.

Definition is_interrogate (c : svc.ChangeRequest) : bool :=
  (svc.Cmd_ c =? svc.Interrogate)%N.

(** The string logged on Stop/Shutdown (lines 95-96). *)
Definition testOutput (args : list string) (c : svc.ChangeRequest) : string :=
  String.concat "-" args ++ "-" ++ fmt_d (svc.Context c).

(** The body of [case c := <-r] (lines 87-103): the events performed and
    whether the loop is left. *)
Definition on_request (args : list string) (c : svc.ChangeRequest)
  : Pc * list Event :=
  if is_interrogate c then
    (PSelect, [Recv c; Send (svc.CurrentStatus c);
               Sleep (100 * time.Millisecond)%Z;
               Send (svc.CurrentStatus c)])
  else if is_stop c then
    (PWaitStop, [Recv c; LogInfo 1%N (testOutput args c); Cancel])
  else
    (PSelect, [Recv c;
               LogError 1%N ("unexpected control request #"
                           ++ svc.fmt_d_ChangeRequest c)]).

(** One reaction: from a program point, with what the environment
    delivered, to the next program point.  [None]: the environment cannot
    deliver this input here.  A send on [changes] (lines 67, 77, 89, 92,
    106) is an event inside a reaction. *)
Definition step (sw : ServiceWrapper) (args : list string)
           (pc : Pc) (i : Input) : option (Pc * list Event) :=
  match pc, i with
  | PSchedule, InSchedule (Some err) =>
      Some (PWaitFail,
            [ScheduleRet (Some err);
             LogError 1%N ("When scheduling the service '" ++ serviceName sw
                         ++ "': " ++ err);
             Cancel])
  | PSchedule, InSchedule None =>
      Some (PSelect,
            [ScheduleRet None; Send (svc.mkStatus svc.Running cmdsAccepted)])
  | PWaitFail, InWaited =>
      Some (PReturned false 1%N, [Waited; Return false 1%N])
  | PSelect, InDone =>
      Some (PWaitDone,
            [CtxDone; LogInfo 1%N "The wrapped service cancelled the execution"])
  | PWaitDone, InWaited =>
      Some (PReturned false 0%N,
            [Waited; Send (svc.mkStatus svc.StopPending 0%N); Return false 0%N])
  | PSelect, InReq c => Some (on_request args c)
  | PWaitStop, InWaited =>
      Some (PReturned false 0%N,
            [Waited; Send (svc.mkStatus svc.StopPending 0%N); Return false 0%N])
  | _, _ => None
  end.

Fixpoint run (sw : ServiceWrapper) (args : list string)
         (pc : Pc) (ins : list Input) : option (Pc * list Event) :=
  match ins with
  | [] => Some (pc, [])
  | i :: ins' =>
      match step sw args pc i with
      | None => None
      | Some (pc', evs) =>
          match run sw args pc' ins' with
          | None => None
          | Some (pc'', evs') => Some (pc'', (evs ++ evs')%list)
          end
      end
  end.

(** [Execute]: line 67 sends StartPending, lines 68-69 create the context
    and the wait group, then the machine blocks in Schedule. *)
Definition Execute (sw : ServiceWrapper) (args : list string)
           (ins : list Input) : option (Pc * list Event) :=
  match run sw args PSchedule ins with
  | None => None
  | Some (pc, evs) =>
      Some (pc, Send (svc.mkStatus svc.StartPending 0%N) :: evs)
  end.

(** *** Observations on traces *)

(** The statuses sent on [changes], in order. *)
Fixpoint sent (tr : list Event) : list svc.Status :=
  match tr with
  | [] => []
  | Send s :: tr' => s :: sent tr'
  | _ :: tr' => sent tr'
  end.

(** The change requests received, in order. *)
Fixpoint received (tr : list Event) : list svc.ChangeRequest :=
  match tr with
  | [] => []
  | Recv c :: tr' => c :: received tr'
  | _ :: tr' => received tr'
  end.

(** The first Stop/Shutdown request received, and the events after it. *)
Fixpoint after_stop (tr : list Event)
  : option (svc.ChangeRequest * list Event) :=
  match tr with
  | [] => None
  | Recv c :: tr' => if is_stop c then Some (c, tr') else after_stop tr'
  | _ :: tr' => after_stop tr'
  end.

Definition is_cancel (e : Event) : bool :=
  match e with Cancel => true | _ => false end.

Definition returned (pc : Pc) : bool :=
  match pc with PReturned _ _ => true | _ => false end.

(** What an Interrogate request puts on [changes]; nothing for the others. *)
Definition replies (c : svc.ChangeRequest) : list svc.Status :=
  if is_interrogate c then [svc.CurrentStatus c; svc.CurrentStatus c] else [].

(** The three statuses [Execute] builds itself (lines 67, 77 and 106). *)
Definition startPending : svc.Status := svc.mkStatus svc.StartPending 0%N.
Definition running : svc.Status := svc.mkStatus svc.Running cmdsAccepted.
Definition stopPending : svc.Status := svc.mkStatus svc.StopPending 0%N.

(** What follows a completed [wg.Wait()] on the two paths that leave the
    loop: line 106 and the return. *)
Definition finish : list Event :=
  [Waited; Send stopPending; Return false 0%N].

(** What [Execute] does between receiving Stop/Shutdown and blocking in
    [wg.Wait()] (lines 95-98). *)
Definition stopping (args : list string) (c : svc.ChangeRequest)
  : list Event :=
  [LogInfo 1%N (testOutput args c); Cancel].

(** The places of the loop and of the two waits that leave it. *)
Definition past_schedule (pc : Pc) : bool :=
  match pc with
  | PSelect | PWaitDone | PWaitStop => true
  | _ => false
  end.

(** An example wrapper and requests, for the concrete runs below. *)
Definition demo : ServiceWrapper :=
  {| serviceName := "demo"; serviceDisplayName := "Demo";
     serviceDescription := "a demo service";
     useExePathAsWorkingDirectory := false |}.

Definition request (cmd : svc.Cmd) : svc.ChangeRequest :=
  {| svc.Cmd_ := cmd; svc.EventType := 0; svc.EventData := 0;
     svc.CurrentStatus := running; svc.Context := 7 |}.

End Exec.

(** ** The management operations and their environment *)

Module Mgr.

(** The calls the package makes outside itself.  A call on a service
    handle carries the name the handle was opened for. *)
Inductive Call :=
| IsWindowsService                      (* svc.IsWindowsService() *)
| Connect                               (* mgr.Connect() *)
| Disconnect                            (* m.Disconnect() *)
| OpenService (name : string)           (* m.OpenService(name) *)
| CreateService (name exepath displayName description : string)
                (startType : N) (args : list string)
| Close (name : string)                 (* s.Close() *)
| Delete (name : string)                (* s.Delete() *)
| Start (name : string) (args : list string)
| Control (name : string) (c : svc.Cmd)
| Query (name : string)
| EventlogInstall (name : string) (supports : N)  (* eventlog.InstallAsEventCreate *)
| EventlogRemove (name : string)        (* eventlog.Remove *)
| EventlogOpen (name : string)          (* eventlog.Open *)
| DebugNew (name : string)              (* debug.New *)
| ElogClose
| ElogInfo (eid : N) (msg : string)
| ElogError (eid : N) (msg : string)
| Run (isDebug : bool) (name : string)  (* svc.Run / debug.Run with sw as handler *)
| Abs (path : string)                   (* filepath.Abs *)
| Stat (path : string)                  (* os.Stat *)
| Stderr (msg : string)                 (* fmt.Fprintf(os.Stderr, ...) *)
| Sleep (d : time.Duration).            (* time.Sleep *)

(** What the environment answers to one call: how long the call took (for
    [time.Sleep], how much longer than asked), the error it returned if any,
    and the value it returned; a call reads the field of its result type. *)
Record Reply := {
  delay : N;
  fault : option error;
  status : svc.Status;   (* Control, Query *)
  flag : bool;           (* IsWindowsService; Stat: fi.Mode().IsDir() *)
  text : string          (* Abs *)
}.

(** The environment answers the calls in the order they are made. *)
Definition Env := nat -> Reply.

Definition Event := (Call * option error)%type.

Record World := {
  env : Env;
  now : Z;                 (* the monotonic clock, in nanoseconds *)
  trace : list Event       (* the calls made so far, with their error *)
}.

(** How a Go function ends: it returns, the process exits ([os.Exit]), or
    the model ran out of fuel in a loop. *)
Inductive Res (A : Type) :=
| Ret (a : A)
| Exit (code : Z)
| Fuel.
Arguments Ret {A} a.
Arguments Exit {A} code.
Arguments Fuel {A}.

Definition M (A : Type) := World -> Res A * World.

Definition ret {A} (a : A) : M A := fun w => (Ret a, w).

Definition bind {A B} (m : M A) (k : A -> M B) : M B :=
  fun w =>
    match m w with
    | (Ret a, w') => k a w'
    | (Exit c, w') => (Exit c, w')
    | (Fuel, w') => (Fuel, w')
    end.

Notation "x <- m ;; k" := (bind m (fun x => k))
  (at level 61, m at next level, right associativity).
Notation "m ;;; k" := (bind m (fun _ => k))
  (at level 61, right associativity).

(** [defer f] before [body]: [f] runs when [body] returns, and its result
    is dropped.  [os.Exit] runs no deferred call. *)
Definition defer {A B} (f : M B) (body : M A) : M A :=
  fun w =>
    match body w with
    | (Ret a, w') => (Ret a, snd (f w'))
    | other => other
    end.

(** A call whose Go signature has an error result. *)
Definition call (c : Call) : M Reply :=
  fun w =>
    let r := env w 0 in
    (Ret r, {| env := fun n => env w (S n);
               now := now w + Z.of_N (delay r);
               trace := (trace w ++ [(c, fault r)])%list |}).

(** A call without an error result. *)
Definition perform (c : Call) : M unit :=
  fun w =>
    let r := env w 0 in
    (Ret tt, {| env := fun n => env w (S n);
                now := now w + Z.of_N (delay r);
                trace := (trace w ++ [(c, None)])%list |}).

Definition time_Now : M Z := fun w => (Ret (now w), w).

(** [time.Sleep d] pauses for at least [d]. *)
Definition time_Sleep (d : time.Duration) : M unit :=
  perform (Sleep d) ;;;
  (fun w => (Ret tt, {| env := env w; now := now w + d; trace := trace w |})).

Definition os_Exit {A} (code : Z) : M A := fun w => (Exit code, w).

Definition out_of_fuel {A} : M A := fun w => (Fuel, w).

(** [os.Args]: the Go runtime always supplies the program name. *)
Record os_Args := { Args0 : string; Args1 : list string }.

Definition len (a : os_Args) : nat := S (List.length (Args1 a)).

(** *** [strings.ToLower] and [filepath.Ext] (Go standard library) *)

Definition isASCII (s : string) : bool :=
  forallb (fun c => (N_of_ascii c <? 128)%N) (list_ascii_of_string s).

Definition lower_byte (c : ascii) : ascii :=
  let n := N_of_ascii c in
  if ((65 <=? n) && (n <=? 90))%N then ascii_of_N (n + 32) else c.

Fixpoint map_bytes (f : ascii -> ascii) (s : string) : string :=
  match s with
  | EmptyString => EmptyString
  | String c s' => String (f c) (map_bytes f s')
  end.

(** [strings.ToLower]: byte-wise on an ASCII string; a string with a byte
    above 0x7f goes through [strings.Map(unicode.ToLower, s)], whose case
    tables are taken as the parameter [unicodeLower]. *)
Definition ToLower (unicodeLower : string -> string) (s : string) : string :=
  if isASCII s then map_bytes lower_byte s else unicodeLower s.

Definition IsPathSeparator (c : ascii) : bool :=
  (c =? "\")%char || (c =? "/")%char.

(** The loop of [filepath.Ext]: [r] holds [path[0..i]] reversed, [acc] is
    [path[i+1:]]. *)
Fixpoint ext_scan (r : list ascii) (acc : string) : string :=
  match r with
  | [] => ""
  | c :: r' =>
      if IsPathSeparator c then ""
      else if (c =? ".")%char then String c acc
      else ext_scan r' (String c acc)
  end.

Definition Ext (path : string) : string :=
  ext_scan (rev (list_ascii_of_string path)) "".

(** *** Constants of [mgr] and [eventlog] *)

Definition StartAutomatic : N := 2.
Definition eventlog_Error : N := 1.
Definition eventlog_Warning : N := 2.
Definition eventlog_Info : N := 4.

(** *** The install file *)

Definition ExePath (args : os_Args) : M (string * option error) :=
  let prog := Args0 args in
  a <- call (Abs prog) ;;
  match fault a with
  | Some err => ret ("", Some err)
  | None =>
      let p := text a in
      fi <- call (Stat p) ;;
      if match fault fi with None => negb (flag fi) | Some _ => false end
      then ret (p, None)
      else
        let err :=
          match fault fi with
          | None => p ++ " is directory"
          | Some e => e
          end in
        if (Ext p =? "")%string then
          let p := p ++ ".exe" in
          fi <- call (Stat p) ;;
          match fault fi with
          | None =>
              if negb (flag fi) then ret (p, None)
              else ret ("", Some (p ++ " is directory"))
          | Some e => ret ("", Some e)
          end
        else ret ("", Some err)
  end.

Definition InstallService (sw : ServiceWrapper) (args : os_Args)
  : M (option error) :=
  x <- ExePath args ;;
  let exepath := fst x in
  match snd x with
  | Some err => ret (Some err)
  | None =>
      m <- call Connect ;;
      match fault m with
      | Some err => ret (Some err)
      | None =>
          defer (call Disconnect)
            (s <- call (OpenService (serviceName sw)) ;;
             match fault s with
             | None =>
                 call (Close (serviceName sw)) ;;;
                 ret (Some ("service " ++ serviceName sw ++ " already exists"))
             | Some _ =>
                 s <- call (CreateService (serviceName sw) exepath
                              (serviceDisplayName sw) (serviceDescription sw)
                              StartAutomatic ["is"; "auto-started"]) ;;
                 match fault s with
                 | Some err => ret (Some err)
                 | None =>
                     defer (call (Close (serviceName sw)))
                       (e <- call (EventlogInstall (serviceName sw)
                                     (N.lor (N.lor eventlog_Error eventlog_Warning)
                                            eventlog_Info)) ;;
                        match fault e with
                        | Some err =>
                            call (Delete (serviceName sw)) ;;;
                            ret (Some ("SetupEventLogSource() failed: " ++ err))
                        | None => ret None
                        end)
                 end
             end)
      end
  end.

Definition RemoveService (sw : ServiceWrapper) : M (option error) :=
  m <- call Connect ;;
  match fault m with
  | Some err => ret (Some err)
  | None =>
      defer (call Disconnect)
        (s <- call (OpenService (serviceName sw)) ;;
         match fault s with
         | Some _ =>
             ret (Some ("service " ++ serviceName sw ++ " is not installed"))
         | None =>
             defer (call (Close (serviceName sw)))
               (d <- call (Delete (serviceName sw)) ;;
                match fault d with
                | Some err => ret (Some err)
                | None =>
                    e <- call (EventlogRemove (serviceName sw)) ;;
                    match fault e with
                    | Some err =>
                        ret (Some ("RemoveEventLogSource() failed: " ++ err))
                    | None => ret None
                    end
                end)
         end)
  end.

(** *** [RunService] ([service.go]) *)

Definition RunService (sw : ServiceWrapper) (isDebug : bool)
  : M (option error) :=
  opened <- (if isDebug
             then perform (DebugNew (serviceName sw)) ;;; ret None
             else r <- call (EventlogOpen (serviceName sw)) ;; ret (fault r)) ;;
  match opened with
  | Some err => ret (Some ("when opening the eventlog: " ++ err))
  | None =>
      defer (call ElogClose)
        (call (ElogInfo 1 ("starting " ++ serviceName sw ++ " service")) ;;;
         r <- call (Run isDebug (serviceName sw)) ;;
         match fault r with
         | Some err =>
             call (ElogError 1 (serviceName sw ++ " service failed: " ++ err)) ;;;
             ret (Some err)
         | None =>
             call (ElogInfo 1 (serviceName sw ++ " service stopped")) ;;;
             ret None
         end)
  end.

(** *** The CLI file *)

Definition nl : string := String (ascii_of_nat 10) "".

(** The text [usage] formats: ["%s\n\nusage: %s <command>\n ..."] with
    [errmsg] and [os.Args[0]]. *)
Definition usage_text (errmsg prog : string) : string :=
  errmsg ++ nl ++ nl
  ++ "usage: " ++ prog ++ " <command>" ++ nl
  ++ "       where <command> is one of" ++ nl
  ++ "       install, remove, debug, start, stop, pause or continue." ++ nl.

(** [usage] ends in [os.Exit(2)]: what follows a call to it never runs. *)
Definition usage (args : os_Args) (errmsg : string) : M unit :=
  call (Stderr (usage_text errmsg (Args0 args))) ;;;
  os_Exit 2.

Definition StartService (sw : ServiceWrapper) : M (option error) :=
  m <- call Connect ;;
  match fault m with
  | Some err => ret (Some err)
  | None =>
      defer (call Disconnect)
        (s <- call (OpenService (serviceName sw)) ;;
         match fault s with
         | Some err => ret (Some ("could not access service: " ++ err))
         | None =>
             defer (call (Close (serviceName sw)))
               (r <- call (Start (serviceName sw) ["is"; "manual-started"]) ;;
                match fault r with
                | Some err => ret (Some ("could not start service: " ++ err))
                | None => ret None
                end)
         end)
  end.

(** The [for status.State != to] loop of [ControlService] (lines 102-111).
    The loop has no counter in the source: it ends by the clock.  [fuel]
    bounds the iterations of the model; sleeping moves the clock by 300 ms
    at least, so [poll_fuel] iterations are never used up ([poll_spec]) and
    more fuel changes nothing ([poll_fuel_enough]). *)
Fixpoint poll (fuel : nat) (name : string) (to : svc.State)
         (timeout : Z) (st : svc.Status) : M (option error) :=
  if (svc.State_ st =? to)%N then ret None
  else
    match fuel with
    | O => out_of_fuel
    | S fuel' =>
        t <- time_Now ;;
        if (timeout <? t)%Z then
          ret (Some ("timeout waiting for service to go to state=" ++ fmt_d to))
        else
          time_Sleep (300 * time.Millisecond)%Z ;;;
          q <- call (Query name) ;;
          match fault q with
          | Some err =>
              ret (Some ("could not retrieve service status: " ++ err))
          | None => poll fuel' name to timeout (status q)
          end
    end.

Definition poll_fuel : nat := 35.

Definition ControlService (sw : ServiceWrapper) (c : svc.Cmd) (to : svc.State)
  : M (option error) :=
  m <- call Connect ;;
  match fault m with
  | Some err => ret (Some err)
  | None =>
      defer (call Disconnect)
        (s <- call (OpenService (serviceName sw)) ;;
         match fault s with
         | Some err => ret (Some ("could not access service: " ++ err))
         | None =>
             defer (call (Close (serviceName sw)))
               (r <- call (Control (serviceName sw) c) ;;
                match fault r with
                | Some err =>
                    ret (Some ("could not send control=" ++ fmt_d c ++ ": " ++ err))
                | None =>
                    t <- time_Now ;;
                    let timeout := (t + 10 * time.Second)%Z in
                    poll poll_fuel (serviceName sw) to timeout (status r)
                end)
         end)
  end.

Section CLI.

(** [strings.Map(unicode.ToLower, s)], see [ToLower]. *)
Variable unicodeLower : string -> string.

Definition ManageService (sw : ServiceWrapper) (args : os_Args)
  : M (option error) :=
  r <- call IsWindowsService ;;
  match fault r with
  | Some err =>
      ret (Some ("failed to determine if we are running in service: " ++ err))
  | None =>
      if flag r then RunService sw false
      else
        (if (len args <? 2)%nat then usage args "no command specified"
         else ret tt) ;;;
        let cmd := ToLower unicodeLower (hd "" (Args1 args)) in
        err <- (if (cmd =? "debug")%string then RunService sw true
                else if (cmd =? "install")%string then InstallService sw args
                else if (cmd =? "remove")%string then RemoveService sw
                else if (cmd =? "start")%string then StartService sw
                else if (cmd =? "stop")%string then
                  ControlService sw svc.Stop svc.Stopped
                else if (cmd =? "pause")%string then
                  ControlService sw svc.Pause svc.Paused
                else if (cmd =? "continue")%string then
                  ControlService sw svc.Continue svc.Running
                else usage args ("invalid command " ++ cmd) ;;; ret None) ;;
        match err with
        | Some e =>
            ret (Some ("failed to " ++ cmd ++ " " ++ serviceName sw
                       ++ ": " ++ e))
        | None => ret None
        end
  end.

End CLI.

(** The time the first [n] calls take by themselves (sleeps not counted). *)
Fixpoint elapsed (e : Env) (n : nat) : Z :=
  match n with
  | O => 0%Z
  | S n' => (Z.of_N (delay (e O)) + elapsed (fun i => e (S i)) n')%Z
  end.

(** What the SCM has registered under [name] after the calls of a trace: a
    successful [CreateService] registers the name, a successful [Delete]
    on a handle of that name removes it. *)
Fixpoint registered (name : string) (before : bool) (tr : list Event) : bool :=
  match tr with
  | [] => before
  | (CreateService n _ _ _ _ _, None) :: tr' =>
      registered name (if (n =? name)%string then true else before) tr'
  | (Delete n, None) :: tr' =>
      registered name (if (n =? name)%string then false else before) tr'
  | _ :: tr' => registered name before tr'
  end.

(** The calls whose result the operations do not look at: the deferred
    ones. *)
Definition is_cleanup (c : Call) : bool :=
  match c with
  | Close _ | Disconnect => true
  | _ => false
  end.

Definition is_create (ev : Event) : bool :=
  match fst ev with
  | CreateService _ _ _ _ _ _ => true
  | _ => false
  end.

Definition is_poll (ev : Event) : bool :=
  match fst ev with
  | Sleep _ | Query _ => true
  | _ => false
  end.

(** *** Running an operation against an environment *)

Definition start_world (e : Env) (t0 : Z) : World :=
  {| env := e; now := t0; trace := [] |}.

Definition result_of {A} (m : M A) (e : Env) (t0 : Z) : Res A :=
  fst (m (start_world e t0)).

Definition calls_of {A} (m : M A) (e : Env) (t0 : Z) : list Event :=
  trace (snd (m (start_world e t0))).

(** The first failing call among those selected by [chk], its error, and
    the calls made after it. *)
Fixpoint first_failure (chk : Call -> bool) (tr : list Event)
  : option (Call * error * list Event) :=
  match tr with
  | [] => None
  | (c, Some err) :: tr' =>
      if chk c then Some (c, err, tr') else first_failure chk tr'
  | (_, None) :: tr' => first_failure chk tr'
  end.

(** *** The four operations on the service manager, as one family *)

Inductive Op :=
| OpInstall
| OpRemove
| OpStart
| OpControl (c : svc.Cmd) (to : svc.State).

Definition run_op (sw : ServiceWrapper) (args : os_Args) (op : Op)
  : M (option error) :=
  match op with
  | OpInstall => InstallService sw args
  | OpRemove => RemoveService sw
  | OpStart => StartService sw
  | OpControl c to => ControlService sw c to
  end.

(** The service-manager and event-log calls whose error an operation
    tests.  [InstallService] expects [OpenService] to fail and drops the
    result of its [Delete]; the deferred [Close] and [Disconnect] are never
    tested. *)
Definition checked (op : Op) (c : Call) : bool :=
  match c, op with
  | Connect, _ => true
  | OpenService _, OpInstall => false
  | OpenService _, _ => true
  | CreateService _ _ _ _ _ _, _ => true
  | Delete _, OpInstall => false
  | Delete _, _ => true
  | Start _ _, _ => true
  | Control _ _, _ => true
  | Query _, _ => true
  | EventlogInstall _ _, _ => true
  | EventlogRemove _, _ => true
  | _, _ => false
  end.

(** The error an operation returns for a failed call, by the [fmt.Errorf]
    (or the plain [return err]) that follows the call in the source. *)
Definition report (sw : ServiceWrapper) (op : Op) (c : Call) (err : error)
  : error :=
  match c, op with
  | OpenService _, OpRemove =>
      "service " ++ serviceName sw ++ " is not installed"
  | OpenService _, _ => "could not access service: " ++ err
  | Start _ _, _ => "could not start service: " ++ err
  | Control _ cmd, _ => "could not send control=" ++ fmt_d cmd ++ ": " ++ err
  | Query _, _ => "could not retrieve service status: " ++ err
  | EventlogInstall _ _, _ => "SetupEventLogSource() failed: " ++ err
  | EventlogRemove _, _ => "RemoveEventLogSource() failed: " ++ err
  | _, _ => err
  end.

(** What may follow a failed call: the deferred calls, and in
    [InstallService] the [Delete] that undoes the creation. *)
Definition allowed_after (op : Op) (ev : Event) : bool :=
  match fst ev, op with
  | Close _, _ | Disconnect, _ => true
  | Delete _, OpInstall => true
  | _, _ => false
  end.

Definition is_eventlog_install (c : Call) : bool :=
  match c with
  | EventlogInstall _ _ => true
  | _ => false
  end.

(** *** The CLI verbs, as the usage text lists them *)



(** An operation reports the failures of the calls it checks: it returns,
    the first failed checked call decides the error returned and only the
    calls of [allowed_after] follow it, and [nil] is returned only when no
    checked call failed. *)
Definition reported (sw : ServiceWrapper) (args : os_Args) (op : Op)
           (e : Env) (t0 : Z) : Prop :=
  let tr := calls_of (run_op sw args op) e t0 in
  let res := result_of (run_op sw args op) e t0 in
  (exists r, res = Ret r) /\
  match first_failure (checked op) tr with
  | Some (c, err, post) =>
      res = Ret (Some (report sw op c err)) /\
      forallb (allowed_after op) post = true
  | None => True
  end /\
  (res = Ret None -> first_failure (checked op) tr = None).

(** A finite script of replies; the calls beyond it succeed at once. *)
Definition quiet : Reply :=
  {| delay := 0; fault := None; status := svc.mkStatus 0%N 0%N;
     flag := false; text := "" |}.

Definition script (l : list Reply) : Env := fun n => nth n l quiet.

Definition ok : Reply := quiet.
Definition failing (e : error) : Reply :=
  {| delay := 0; fault := Some e; status := svc.mkStatus 0%N 0%N;
     flag := false; text := "" |}.
Definition in_state (s : svc.State) (d : N) : Reply :=
  {| delay := d; fault := None; status := svc.mkStatus s 0%N;
     flag := false; text := "" |}.
Definition path_is (p : string) : Reply :=
  {| delay := 0; fault := None; status := svc.mkStatus 0%N 0%N;
     flag := false; text := p |}.

(** *** Example environments *)

Definition demo : ServiceWrapper := Exec.demo.

Definition cli (argv : list string) : os_Args :=
  {| Args0 := "C:\svc\demo.exe"; Args1 := argv |}.

(** A service that takes two polls to stop. *)
Definition stops_slowly : Env :=
  script [ok; ok; in_state svc.StopPending 5; ok; in_state svc.StopPending 7;
          ok; in_state svc.Stopped 3].

(** A service that stays in StartPending for ever. *)
Definition never_running : Env := fun _ => in_state svc.StartPending 0.

(** The executable is found, the name is free, the service is created,
    registering the event-log source fails; then Delete works or not. *)
Definition eventlog_refused (delete : Reply) : Env :=
  script [path_is "C:\svc\demo.exe"; ok; ok;
          failing "The specified service does not exist as an installed service.";
          ok; failing "Access is denied."; delete].

(** A plain, successful install. *)
Definition fresh_install : Env :=
  script [path_is "C:\svc\demo.exe"; ok; ok;
          failing "The specified service does not exist as an installed service."].

End Mgr.

(** ** Further observations on the traces of [Execute] *)

Module ExecObs.

Import Exec.

Definition is_waited (e : Event) : bool :=
  match e with Waited => true | _ => false end.

Definition is_ctx_done (e : Event) : bool :=
  match e with CtxDone => true | _ => false end.

Definition is_return (e : Event) : bool :=
  match e with Return _ _ => true | _ => false end.

Definition is_schedule_error (e : Event) : bool :=
  match e with ScheduleRet (Some _) => true | _ => false end.

(** How many events of a kind a trace has. *)
Definition count (p : Event -> bool) (tr : list Event) : nat :=
  List.length (filter p tr).

(** The inputs that keep [Execute] in its loop: the requests that are not
    Stop or Shutdown. *)
Definition serving (i : Input) : bool :=
  match i with
  | InReq c => negb (is_stop c)
  | _ => false
  end.

(** What [Execute] does for one request. *)
Definition served (args : list string) (c : svc.ChangeRequest) : list Event :=
  snd (on_request args c).

End ExecObs.

(** ** Further observations on the calls of the management operations *)

Module MgrObs.

Import Mgr.

Definition is_path_call (c : Call) : bool :=
  match c with
  | Abs _ | Stat _ => true
  | _ => false
  end.

Definition is_run (c : Call) : bool :=
  match c with
  | Run _ _ => true
  | _ => false
  end.

Definition is_eventlog_remove (c : Call) : bool :=
  match c with
  | EventlogRemove _ => true
  | _ => false
  end.

(** The calls that change what the service manager has registered. *)
Definition changes_registration (c : Call) : bool :=
  match c with
  | CreateService _ _ _ _ _ _ | Delete _ => true
  | _ => false
  end.

(** A successful [Delete]. *)
Definition is_deleted (ev : Event) : bool :=
  match ev with
  | (Delete _, None) => true
  | _ => false
  end.

(** The error of the first call selected by [p], if there is such a call. *)
Fixpoint outcome_of (p : Call -> bool) (tr : list Event)
  : option (option error) :=
  match tr with
  | [] => None
  | (c, r) :: tr' => if p c then Some r else outcome_of p tr'
  end.



(** The reply that says yes: [os.Stat] on a directory,
    [svc.IsWindowsService] inside a service. *)
Definition flagged : Reply :=
  {| delay := 0; fault := None; status := svc.mkStatus 0%N 0%N;
     flag := true; text := "" |}.

(** Install, then remove, in one process. *)
Definition install_then_remove (sw : ServiceWrapper) (args : os_Args)
  : M (option error * option error) :=
  r1 <- InstallService sw args ;;
  r2 <- RemoveService sw ;;
  ret (r1, r2).

(** An environment that never reports [to] and never fails a query:
    the replies to Control and to the queries of [ControlService]. *)
Definition never_reaches (to : svc.State) (e : Env) : Prop :=
  forall j, fault (e (2 + 2 * j)%nat) = None /\
            svc.State_ (status (e (2 + 2 * j)%nat)) <> to.

End MgrObs.

(** ** [GetServiceWrapper] and [setExePathAsWorkingDirectory] ([service.go]) *)

Module Wd.

Section WorkingDirectory.

(** [filepath.Dir] (Go standard library), taken as it is. *)
Variable filepath_Dir : string -> string.

(** What [os.Executable()] returns, and what [os.Chdir] returns for a
    directory. *)
Variable os_Executable : string * option error.
Variable os_Chdir : string -> option error.

(** The error returned, and the directories [os.Chdir] was called with. *)
Definition setExePathAsWorkingDirectory : option error * list string :=
  match snd os_Executable with
  | Some err => (Some ("when getting executable path: " ++ err), [])
  | None =>
      let executableDir := filepath_Dir (fst os_Executable) in
      match os_Chdir executableDir with
      | Some err =>
          (Some ("when changing to executable path: " ++ err), [executableDir])
      | None => (None, [executableDir])
      end
  end.

(** The wrapper (or nil), the error, and the directories changed to.  The
    [service] argument is carried by the environment of [Execute]. *)
Definition GetServiceWrapper
           (servicName serviceDisplayName serviceDescription : string)
           (useExePathAsWorkingDirectory : bool)
  : option ServiceWrapper * option error * list string :=
  let wrapper :=
    {| serviceName := servicName;
       serviceDisplayName := serviceDisplayName;
       serviceDescription := serviceDescription;
       useExePathAsWorkingDirectory := useExePathAsWorkingDirectory |} in
  if useExePathAsWorkingDirectory then
    match setExePathAsWorkingDirectory with
    | (Some err, dirs) =>
        (None, Some ("when changing working directory: " ++ err), dirs)
    | (None, dirs) => (Some wrapper, None, dirs)
    end
  else (Some wrapper, None, []).

End WorkingDirectory.

End Wd.

(** * Facts about [Execute] *)

Section ExecuteClaims.

Import Exec.

Variable sw : ServiceWrapper.
Variable args : list string.

Lemma run_app (ins1 ins2 : list Input) (pc : Pc) :
  run sw args pc (ins1 ++ ins2) =
  match run sw args pc ins1 with
  | None => None
  | Some (pc1, evs1) =>
      match run sw args pc1 ins2 with
      | None => None
      | Some (pc2, evs2) => Some (pc2, (evs1 ++ evs2)%list)
      end
  end.
Proof.
  revert pc; induction ins1 as [|i ins1 IH]; intros pc; simpl.
  - destruct (run sw args pc ins2) as [[pc2 evs2]|]; reflexivity.
  - destruct (step sw args pc i) as [[pc1 evs1]|]; [|reflexivity].
    rewrite IH.
    destruct (run sw args pc1 ins1) as [[pc2 evs2]|]; [|reflexivity].
    destruct (run sw args pc2 ins2) as [[pc3 evs3]|]; [|reflexivity].
    now rewrite app_assoc.
Qed.

(** One more input after an execution. *)
Lemma Execute_snoc (ins : list Input) (i : Input) (pc pc' : Pc)
      (tr evs : list Event) :
  Execute sw args ins = Some (pc, tr) ->
  step sw args pc i = Some (pc', evs) ->
  Execute sw args (ins ++ [i]) = Some (pc', (tr ++ evs)%list).
Proof.
  unfold Execute; intros H Hs.
  rewrite run_app.
  destruct (run sw args PSchedule ins) as [[pc0 tr0]|]; [|discriminate].
  injection H as -> <-.
  simpl; rewrite Hs, app_nil_r; reflexivity.
Qed.

(** Nothing is accepted after the return; a wait accepts only its end. *)
Lemma run_returned (ins : list Input) (b : bool) (n : N) (pc : Pc)
      (evs : list Event) :
  run sw args (PReturned b n) ins = Some (pc, evs) ->
  ins = [] /\ pc = PReturned b n /\ evs = [].
Proof.
  destruct ins as [|i ins]; simpl.
  - intros [= <- <-]; auto.
  - discriminate.
Qed.

Lemma run_wait_stop (ins : list Input) (pc : Pc) (evs : list Event) :
  run sw args PWaitStop ins = Some (pc, evs) ->
  (ins = [] /\ pc = PWaitStop /\ evs = []) \/
  (ins = [InWaited] /\ pc = PReturned false 0%N /\ evs = finish).
Proof.
  destruct ins as [|i ins]; simpl.
  - intros [= <- <-]; auto.
  - destruct i; try discriminate; simpl.
    destruct (run sw args (PReturned false 0%N) ins) as [[pc1 evs1]|] eqn:E;
      [|discriminate].
    apply run_returned in E as (-> & -> & ->).
    intros [= <- <-]; auto.
Qed.

Lemma run_wait_done (ins : list Input) (pc : Pc) (evs : list Event) :
  run sw args PWaitDone ins = Some (pc, evs) ->
  (ins = [] /\ pc = PWaitDone /\ evs = []) \/
  (ins = [InWaited] /\ pc = PReturned false 0%N /\ evs = finish).
Proof.
  destruct ins as [|i ins]; simpl.
  - intros [= <- <-]; auto.
  - destruct i; try discriminate; simpl.
    destruct (run sw args (PReturned false 0%N) ins) as [[pc1 evs1]|] eqn:E;
      [|discriminate].
    apply run_returned in E as (-> & -> & ->).
    intros [= <- <-]; auto.
Qed.

Lemma run_wait_fail (ins : list Input) (pc : Pc) (evs : list Event) :
  run sw args PWaitFail ins = Some (pc, evs) ->
  (ins = [] /\ pc = PWaitFail /\ evs = []) \/
  (ins = [InWaited] /\ pc = PReturned false 1%N /\
   evs = [Waited; Return false 1%N]).
Proof.
  destruct ins as [|i ins]; simpl.
  - intros [= <- <-]; auto.
  - destruct i; try discriminate; simpl.
    destruct (run sw args (PReturned false 1%N) ins) as [[pc1 evs1]|] eqn:E;
      [|discriminate].
    apply run_returned in E as (-> & -> & ->).
    intros [= <- <-]; auto.
Qed.

(** The observations distribute over the events of a request. *)
Lemma sent_app (t1 t2 : list Event) :
  sent (t1 ++ t2) = (sent t1 ++ sent t2)%list.
Proof.
  induction t1 as [|e t1 IH]; simpl; [reflexivity|].
  destruct e; simpl; rewrite ?IH; reflexivity.
Qed.

Lemma received_app (t1 t2 : list Event) :
  received (t1 ++ t2) = (received t1 ++ received t2)%list.
Proof.
  induction t1 as [|e t1 IH]; simpl; [reflexivity|].
  destruct e; simpl; rewrite ?IH; reflexivity.
Qed.

Lemma on_request_sent (c : svc.ChangeRequest) :
  sent (snd (on_request args c)) = replies c /\
  received (snd (on_request args c)) = [c].
Proof.
  unfold on_request, replies.
  destruct (is_interrogate c); [split; reflexivity|].
  destruct (is_stop c); split; reflexivity.
Qed.

Lemma on_request_pc (c : svc.ChangeRequest) :
  fst (on_request args c) = if is_stop c && negb (is_interrogate c)
                            then PWaitStop else PSelect.
Proof.
  unfold on_request.
  destruct (is_interrogate c); [now rewrite andb_false_r|].
  destruct (is_stop c); reflexivity.
Qed.

(** From the select, an execution that has received a Stop/Shutdown is
    blocked in the wait that follows [cancel()], or has finished. *)
Lemma run_select_after_stop (ins : list Input) (pc : Pc) (evs : list Event)
      (c : svc.ChangeRequest) (post : list Event) :
  run sw args PSelect ins = Some (pc, evs) ->
  after_stop evs = Some (c, post) ->
  (pc = PWaitStop /\ post = stopping args c) \/
  (pc = PReturned false 0%N /\ post = (stopping args c ++ finish)%list).
Proof.
  revert evs; induction ins as [|i ins IH]; intros evs; simpl.
  - intros [= <- <-]; discriminate.
  - destruct i as [e| | |c']; try discriminate.
    + (* <-ctx.Done() *)
      destruct (run sw args PWaitDone ins) as [[pc1 evs1]|] eqn:E;
        [|discriminate].
      intros [= <- <-].
      apply run_wait_done in E as [(_ & _ & ->)|(_ & _ & ->)]; discriminate.
    + (* c' := <-r *)
      unfold on_request.
      destruct (is_interrogate c') eqn:Hi.
      * destruct (run sw args PSelect ins) as [[pc1 evs1]|] eqn:E;
          [|discriminate].
        intros [= <- <-]; simpl.
        assert (is_stop c' = false) as ->.
        { unfold is_interrogate in Hi; apply N.eqb_eq in Hi.
          unfold is_stop; rewrite Hi; reflexivity. }
        eauto.
      * destruct (is_stop c') eqn:Hs.
        -- destruct (run sw args PWaitStop ins) as [[pc1 evs1]|] eqn:E;
             [|discriminate].
           intros [= <- <-]; simpl; rewrite Hs.
           intros [= <- <-].
           apply run_wait_stop in E as [(_ & -> & ->)|(_ & -> & ->)]; auto.
        -- destruct (run sw args PSelect ins) as [[pc1 evs1]|] eqn:E;
             [|discriminate].
           intros [= <- <-]; simpl; rewrite Hs.
           eauto.
Qed.

(** From the loop on, statuses are sent only in reply to Interrogate, and
    StopPending once at the end. *)
Lemma run_loop_sent (ins : list Input) (pc pc' : Pc) (evs : list Event) :
  past_schedule pc = true ->
  run sw args pc ins = Some (pc', evs) ->
  sent evs = (flat_map replies (received evs)
              ++ if returned pc' then [stopPending] else [])%list /\
  (past_schedule pc' = true \/ pc' = PReturned false 0%N).
Proof.
  revert pc evs; induction ins as [|i ins IH]; intros pc evs Hpc; simpl.
  - intros [= <- <-]; destruct pc; try discriminate; simpl; auto.
  - destruct (step sw args pc i) as [[pc1 evs1]|] eqn:Hs; [|discriminate].
    destruct (run sw args pc1 ins) as [[pc2 evs2]|] eqn:E; [|discriminate].
    intros [= <- <-].
    rewrite sent_app, received_app, flat_map_app.
    destruct pc; try discriminate Hpc; destruct i; try discriminate Hs;
      simpl in Hs; injection Hs as Hs; subst.
    + (* select, <-ctx.Done() *)
      apply IH in E as [-> ?]; auto.
    + (* select, c := <-r *)
      destruct (on_request_sent c) as [Hsent Hrecv].
      assert (past_schedule (fst (on_request args c)) = true) as Hp.
      { rewrite on_request_pc; destruct (_ && _); reflexivity. }
      rewrite Hs in Hsent, Hrecv, Hp; simpl in Hsent, Hrecv, Hp.
      rewrite Hsent, Hrecv; simpl; rewrite app_nil_r.
      apply IH in E as [-> ?]; auto.
      now rewrite app_assoc.
    + (* the wait after ctx.Done() *)
      apply run_returned in E as (_ & -> & ->); simpl; auto.
    + (* the wait after Stop/Shutdown *)
      apply run_returned in E as (_ & -> & ->); simpl; auto.
Qed.

(** An execution in which Schedule succeeded goes on from the select. *)
Lemma Execute_scheduled (ins : list Input) (pc : Pc) (tr : list Event) :
  Execute sw args (InSchedule None :: ins) = Some (pc, tr) ->
  exists evs,
    run sw args PSelect ins = Some (pc, evs) /\
    tr = Send startPending :: ScheduleRet None :: Send running :: evs.
Proof.
  unfold Execute; simpl.
  destruct (run sw args PSelect ins) as [[pc1 evs1]|]; [|discriminate].
  intros [= <- <-]. exists evs1; split; reflexivity.
Qed.

(** An execution in which Schedule failed waits, then returns. *)
Lemma Execute_schedule_failed (err : error) (ins : list Input) (pc : Pc)
      (tr : list Event) :
  Execute sw args (InSchedule (Some err) :: ins) = Some (pc, tr) ->
  exists evs,
    run sw args PWaitFail ins = Some (pc, evs) /\
    tr = (Send startPending :: ScheduleRet (Some err)
          :: LogError 1%N ("When scheduling the service '" ++ serviceName sw
                           ++ "': " ++ err)
          :: Cancel :: evs).
Proof.
  unfold Execute; simpl.
  destruct (run sw args PWaitFail ins) as [[pc1 evs1]|]; [|discriminate].
  intros [= <- <-]. exists evs1; split; reflexivity.
Qed.

(** Every execution starts by the result of Schedule. *)
Lemma Execute_inputs (ins : list Input) (pc : Pc) (tr : list Event) :
  Execute sw args ins = Some (pc, tr) ->
  (ins = [] /\ pc = PSchedule /\ tr = [Send startPending]) \/
  (exists e ins', ins = InSchedule e :: ins').
Proof.
  destruct ins as [|i ins]; [intros [= <- <-]; auto|].
  unfold Execute; simpl.
  destruct i; try discriminate; eauto.
Qed.

Lemma is_stop_spec (c : svc.ChangeRequest) :
  is_stop c = true <-> svc.Cmd_ c = svc.Stop \/ svc.Cmd_ c = svc.Shutdown.
Proof.
  unfold is_stop. rewrite orb_true_iff, !N.eqb_eq. reflexivity.
Qed.

(** [after_stop] finds the first Stop/Shutdown request of a trace. *)
Lemma after_stop_split (tr : list Event) (c : svc.ChangeRequest)
      (post : list Event) :
  after_stop tr = Some (c, post) ->
  exists pre,
    tr = (pre ++ Recv c :: post)%list /\
    is_stop c = true /\
    forall c', In (Recv c') pre -> is_stop c' = false.
Proof.
  induction tr as [|e tr IH]; simpl; [discriminate|].
  assert (Hskip : after_stop tr = Some (c, post) ->
                  (forall c', e <> Recv c' \/ is_stop c' = false) ->
                  exists pre,
                    e :: tr = (pre ++ Recv c :: post)%list /\
                    is_stop c = true /\
                    forall c', In (Recv c') pre -> is_stop c' = false).
  { intros H He. destruct (IH H) as (pre & -> & Hc & Hpre).
    exists (e :: pre). repeat split; auto.
    intros c' [->|Hin]; [|auto].
    destruct (He c') as [Hne|Hf]; [congruence|exact Hf]. }
  destruct e as [s| | | | | | |c0| |]; try (intros H; apply Hskip; [exact H|]; left; discriminate).
  destruct (is_stop c0) eqn:Hs.
  - intros [= <- <-]. exists []. repeat split; auto. intros c' [].
  - intros H; apply Hskip; [exact H|].
    intros c'. destruct (is_stop c') eqn:Hc'; [left|now right].
    intros [= ->]. congruence.
Qed.

Lemma after_stop_complete (tr : list Event) (c : svc.ChangeRequest) :
  In (Recv c) tr -> is_stop c = true ->
  exists c' post, after_stop tr = Some (c', post).
Proof.
  induction tr as [|e tr IH]; simpl; [contradiction|].
  intros [->|Hin] Hs.
  - rewrite Hs; eauto.
  - destruct e; auto.
    destruct (is_stop c0); eauto.
Qed.

(** C1.  In every execution of [Execute] in which a Stop or Shutdown
    request has been received, what [Execute] did after receiving it is:
    log, [cancel()], and then either it is still blocked in [wg.Wait()]
    with StopPending not sent (and the end of the wait makes it send
    StopPending and return), or the wait has ended and StopPending was sent
    after it, followed by the return.  StopPending is not reported before
    the wait group of the user task is done. *)
Theorem stop_joins_task_before_stop_pending
        (ins : list Input) (pc : Pc) (tr : list Event)
        (c : svc.ChangeRequest) :
  Execute sw args ins = Some (pc, tr) ->
  In (Recv c) tr ->
  svc.Cmd_ c = svc.Stop \/ svc.Cmd_ c = svc.Shutdown ->
  exists pre post,
    tr = (pre ++ Recv c :: post)%list /\
    ((pc = PWaitStop /\
      post = [LogInfo 1%N (testOutput args c); Cancel] /\
      Execute sw args (ins ++ [InWaited]) =
        Some (PReturned false 0%N,
              (tr ++ [Waited; Send stopPending; Return false 0%N])%list)) \/
     (pc = PReturned false 0%N /\
      post = [LogInfo 1%N (testOutput args c); Cancel;
              Waited; Send stopPending; Return false 0%N])).
Proof.
  intros HE Hin Hc. apply is_stop_spec in Hc.
  destruct (after_stop_complete _ _ Hin Hc) as (c' & post & Hstop).
  destruct (after_stop_split _ _ _ Hstop) as (pre & Htr & _ & Hpre).
  assert (Hshape :
            (pc = PWaitStop /\ post = stopping args c') \/
            (pc = PReturned false 0%N /\
             post = (stopping args c' ++ finish)%list)).
  { destruct (Execute_inputs _ _ _ HE) as [(-> & -> & ->)|(e & ins' & ->)];
      [discriminate|].
    destruct e as [err|].
    - apply Execute_schedule_failed in HE as (evs & Hrun & ->).
      apply run_wait_fail in Hrun as [(_ & _ & ->)|(_ & _ & ->)];
        discriminate.
    - apply Execute_scheduled in HE as (evs & Hrun & ->).
      simpl in Hstop.
      exact (run_select_after_stop _ _ _ _ _ Hrun Hstop). }
  assert (c = c') as <-.
  { rewrite Htr in Hin. apply in_app_or in Hin as [Hin|[[= ->]|Hin]].
    - apply Hpre in Hin. congruence.
    - reflexivity.
    - exfalso. destruct Hshape as [(_ & ->)|(_ & ->)]; simpl in Hin;
        intuition discriminate. }
  exists pre, post. split; [exact Htr|].
  destruct Hshape as [(-> & ->)|(-> & ->)].
  - left; split; [reflexivity|split; [reflexivity|]].
    apply (Execute_snoc _ _ _ _ _ _ HE); reflexivity.
  - right; split; reflexivity.
Qed.

(** The statuses sent by an execution in which Schedule succeeded. *)
Lemma sent_when_scheduled (ins : list Input) (pc : Pc) (tr : list Event) :
  Execute sw args (InSchedule None :: ins) = Some (pc, tr) ->
  sent tr = (startPending :: running
             :: flat_map replies (received tr)
             ++ if returned pc then [stopPending] else [])%list.
Proof.
  intros HE.
  apply Execute_scheduled in HE as (evs & Hrun & ->).
  simpl. do 2 f_equal.
  now apply (run_loop_sent ins PSelect pc evs).
Qed.

(** C2, amended.  In every execution of [Execute] in which Schedule
    returned no error, StartPending is the first status sent, Running
    (accepting stop and shutdown) the second, sent before the loop is
    entered; after it come only the replies to Interrogate requests, and
    StopPending is sent last, exactly when [Execute] has returned. *)
Theorem status_sequence_when_scheduled
        (ins : list Input) (pc : Pc) (tr : list Event) :
  Execute sw args (InSchedule None :: ins) = Some (pc, tr) ->
  (exists evs,
     tr = Send startPending :: ScheduleRet None :: Send running :: evs /\
     run sw args PSelect ins = Some (pc, evs)) /\
  sent tr = (startPending :: running
             :: flat_map replies (received tr)
             ++ if returned pc then [stopPending] else [])%list.
Proof.
  intros HE. split.
  - apply Execute_scheduled in HE as (evs & Hrun & ->). eauto.
  - exact (sent_when_scheduled ins pc tr HE).
Qed.

(** C4, amended.  The Running status [Execute] reports accepts stop and
    shutdown only, not pause/continue, and a Pause or Continue request
    received in the loop is logged as an unexpected control request:
    nothing is sent and the loop goes on. *)
Theorem pause_and_continue_are_unexpected
        (ins : list Input) (tr : list Event) (c : svc.ChangeRequest) :
  svc.Cmd_ c = svc.Pause \/ svc.Cmd_ c = svc.Continue ->
  Execute sw args ins = Some (PSelect, tr) ->
  nth_error (sent tr) 1 = Some running /\
  svc.Accepts running = N.lor svc.AcceptStop svc.AcceptShutdown /\
  N.land (svc.Accepts running) svc.AcceptPauseAndContinue = 0%N /\
  Execute sw args (ins ++ [InReq c]) =
    Some (PSelect,
          (tr ++ [Recv c;
                  LogError 1%N ("unexpected control request #"
                                ++ svc.fmt_d_ChangeRequest c)])%list).
Proof.
  intros Hc HE. split; [|split; [reflexivity|split; [reflexivity|]]].
  - destruct (Execute_inputs _ _ _ HE) as [(_ & [=] & _)|(e & ins' & ->)].
    destruct e as [err|].
    + apply Execute_schedule_failed in HE as (evs & Hrun & _).
      apply run_wait_fail in Hrun as [(_ & [=] & _)|(_ & [=] & _)].
    + now rewrite (sent_when_scheduled _ _ _ HE).
  - apply (Execute_snoc _ _ _ _ _ _ HE); simpl.
    unfold on_request, is_interrogate, is_stop.
    destruct Hc as [-> | ->]; reflexivity.
Qed.

(** C6.  An Interrogate request received in the loop is answered with the
    request's current status (sent, and sent again after 100 ms);
    [cancel()] is not called and [Execute] is back at the select. *)
Theorem interrogate_is_answered_in_the_loop
        (ins : list Input) (tr : list Event) (c : svc.ChangeRequest) :
  svc.Cmd_ c = svc.Interrogate ->
  Execute sw args ins = Some (PSelect, tr) ->
  exists evs,
    Execute sw args (ins ++ [InReq c]) = Some (PSelect, (tr ++ evs)%list) /\
    evs = [Recv c; Send (svc.CurrentStatus c);
           Sleep (100 * time.Millisecond)%Z; Send (svc.CurrentStatus c)] /\
    existsb is_cancel evs = false.
Proof.
  intros Hc HE. eexists; split; [|split; reflexivity].
  apply (Execute_snoc _ _ _ _ _ _ HE); simpl.
  unfold on_request, is_interrogate; rewrite Hc; reflexivity.
Qed.

(** C9.  When Schedule returns an error, [Execute] logs it, calls
    [cancel()], waits for the wait group and returns with errno 1; the only
    status it ever sends is StartPending. *)
Theorem failed_schedule_reports_only_start_pending
        (err : error) (ins : list Input) (pc : Pc) (tr : list Event) :
  Execute sw args (InSchedule (Some err) :: ins) = Some (pc, tr) ->
  let msg := "When scheduling the service '" ++ serviceName sw
             ++ "': " ++ err in
  sent tr = [startPending] /\
  ((ins = [] /\ pc = PWaitFail /\
    tr = [Send startPending; ScheduleRet (Some err); LogError 1%N msg;
          Cancel] /\
    Execute sw args [InSchedule (Some err); InWaited] =
      Some (PReturned false 1%N,
            (tr ++ [Waited; Return false 1%N])%list)) \/
   (ins = [InWaited] /\ pc = PReturned false 1%N /\
    tr = [Send startPending; ScheduleRet (Some err); LogError 1%N msg;
          Cancel; Waited; Return false 1%N])).
Proof.
  intros HE.
  apply Execute_schedule_failed in HE as (evs & Hrun & ->).
  apply run_wait_fail in Hrun as [(-> & -> & ->)|(-> & -> & ->)].
  - split; [reflexivity|]. left; repeat split; reflexivity.
  - split; [reflexivity|]. right; repeat split; reflexivity.
Qed.

(** C10.  A request received in the loop whose command is none of
    Interrogate, Stop and Shutdown is only logged: no status is sent,
    [cancel()] is not called, and [Execute] is back at the select. *)
Theorem other_requests_are_only_logged
        (ins : list Input) (tr : list Event) (c : svc.ChangeRequest) :
  svc.Cmd_ c <> svc.Interrogate ->
  svc.Cmd_ c <> svc.Stop ->
  svc.Cmd_ c <> svc.Shutdown ->
  Execute sw args ins = Some (PSelect, tr) ->
  exists evs,
    Execute sw args (ins ++ [InReq c]) = Some (PSelect, (tr ++ evs)%list) /\
    evs = [Recv c;
           LogError 1%N ("unexpected control request #"
                         ++ svc.fmt_d_ChangeRequest c)] /\
    sent evs = [] /\
    existsb is_cancel evs = false.
Proof.
  intros Hi Hs Hd HE. eexists; split; [|repeat split; reflexivity].
  apply (Execute_snoc _ _ _ _ _ _ HE); simpl.
  unfold on_request, is_interrogate, is_stop.
  apply N.eqb_neq in Hi, Hs, Hd; rewrite Hi, Hs, Hd; reflexivity.
Qed.

End ExecuteClaims.

(** ** Concrete executions of [Execute] *)

Section ExecuteRuns.

Import Exec.

(** C1 on a run: Schedule succeeds, Stop arrives, the task finishes. *)
Lemma stop_joins_task_before_stop_pending_run :
  exists pc tr,
    Execute demo ["svc"; "x"]
            [InSchedule None; InReq (request svc.Stop); InWaited]
      = Some (pc, tr) /\
    In (Recv (request svc.Stop)) tr /\
    pc = PReturned false 0%N /\
    exists pre,
      tr = (pre ++ [Recv (request svc.Stop); LogInfo 1%N "svc-x-7"; Cancel;
                    Waited; Send stopPending; Return false 0%N])%list.
Proof.
  do 2 eexists.
  split; [reflexivity|]. split; [simpl; auto 10|].
  destruct (stop_joins_task_before_stop_pending demo ["svc"; "x"]
              [InSchedule None; InReq (request svc.Stop); InWaited]
              _ _ (request svc.Stop) eq_refl
              ltac:(simpl; auto 10) (or_introl eq_refl))
    as (pre & post & Htr & [([=] & _)|(Hpc & Hpost)]).
  split; [exact Hpc|].
  exists pre. rewrite Htr, Hpost. reflexivity.
Defined.

(** C2 as stated fails when Schedule returns an error: [Execute] returns
    having sent StartPending only; Running and StopPending never appear. *)
Lemma status_sequence_breaks_on_failed_schedule :
  let tr := [Send startPending; ScheduleRet (Some "no task");
             LogError 1%N "When scheduling the service 'demo': no task";
             Cancel; Waited; Return false 1%N] in
  Execute demo [] [InSchedule (Some "no task"); InWaited]
    = Some (PReturned false 1%N, tr) /\
  sent tr = [startPending] /\
  ~ In running (sent tr) /\
  last (sent tr) startPending <> stopPending.
Proof.
  simpl. split; [reflexivity|]. split; [reflexivity|]. split.
  - intros [H|[]]; discriminate H.
  - discriminate.
Qed.

(** C2, amended, on a run with an Interrogate and a Shutdown. *)
Lemma status_sequence_when_scheduled_run :
  exists pc tr,
    Execute demo []
            [InSchedule None; InReq (request svc.Interrogate);
             InReq (request svc.Shutdown); InWaited] = Some (pc, tr) /\
    sent tr = [startPending; running; running; running; stopPending].
Proof.
  do 2 eexists. split; [reflexivity|].
  exact (proj2 (status_sequence_when_scheduled demo []
                  [InReq (request svc.Interrogate);
                   InReq (request svc.Shutdown); InWaited] _ _ eq_refl)).
Defined.

(** C4 as stated fails: the Running status does not carry
    [AcceptPauseAndContinue], and a Pause request is logged as an
    unexpected control request. *)
Lemma pause_is_neither_advertised_nor_handled :
  Execute demo [] [InSchedule None; InReq (request svc.Pause)]
    = Some (PSelect,
            [Send startPending; ScheduleRet None; Send running;
             Recv (request svc.Pause);
             LogError 1%N
               "unexpected control request #{2 0 0 {4 5 0 0 0 0 0} 7}"]) /\
  svc.Accepts running = 5%N /\
  N.testbit (svc.Accepts running) 1 = false /\
  N.land (svc.Accepts running) svc.AcceptPauseAndContinue = 0%N.
Proof. repeat split. Qed.

(** C4, amended, on a run: Continue after a successful Schedule. *)
Lemma pause_and_continue_are_unexpected_run :
  svc.Cmd_ (request svc.Continue) = svc.Continue /\
  Execute demo [] [InSchedule None] = Some
    (PSelect, [Send startPending; ScheduleRet None; Send running]) /\
  Execute demo [] [InSchedule None; InReq (request svc.Continue)] =
    Some (PSelect,
          [Send startPending; ScheduleRet None; Send running;
           Recv (request svc.Continue);
           LogError 1%N
             "unexpected control request #{3 0 0 {4 5 0 0 0 0 0} 7}"]).
Proof.
  split; [reflexivity|]. split; [reflexivity|].
  exact (proj2 (proj2 (proj2
           (pause_and_continue_are_unexpected demo [] [InSchedule None] _
              (request svc.Continue) (or_intror eq_refl) eq_refl)))).
Defined.

(** C6 on a run. *)
Lemma interrogate_is_answered_in_the_loop_run :
  svc.Cmd_ (request svc.Interrogate) = svc.Interrogate /\
  Execute demo [] [InSchedule None] = Some
    (PSelect, [Send startPending; ScheduleRet None; Send running]) /\
  exists evs,
    Execute demo [] [InSchedule None; InReq (request svc.Interrogate)] =
      Some (PSelect,
            ([Send startPending; ScheduleRet None; Send running] ++ evs)%list) /\
    evs = [Recv (request svc.Interrogate); Send running;
           Sleep 100000000%Z; Send running] /\
    existsb is_cancel evs = false.
Proof.
  split; [reflexivity|]. split; [reflexivity|].
  exact (interrogate_is_answered_in_the_loop demo [] [InSchedule None] _
           (request svc.Interrogate) eq_refl eq_refl).
Defined.

(** C9 on a run. *)
Lemma failed_schedule_reports_only_start_pending_run :
  exists pc tr,
    Execute demo [] [InSchedule (Some "no task"); InWaited] = Some (pc, tr) /\
    sent tr = [startPending] /\ pc = PReturned false 1%N.
Proof.
  do 2 eexists. split; [reflexivity|].
  destruct (failed_schedule_reports_only_start_pending demo [] "no task"
              [InWaited] _ _ eq_refl) as [Hsent [([=] & _)|(_ & Hpc & _)]].
  split; [exact Hsent | exact Hpc].
Defined.

(** C10 on a run: a ParamChange request (command 6). *)
Lemma other_requests_are_only_logged_run :
  exists evs,
    Execute demo [] [InSchedule None; InReq (request 6%N)] =
      Some (PSelect,
            ([Send startPending; ScheduleRet None; Send running] ++ evs)%list) /\
    evs = [Recv (request 6%N);
           LogError 1%N
             "unexpected control request #{6 0 0 {4 5 0 0 0 0 0} 7}"] /\
    sent evs = [] /\
    existsb is_cancel evs = false.
Proof.
  apply (other_requests_are_only_logged demo [] [InSchedule None] _
           (request 6%N)); [discriminate | discriminate | discriminate |].
  reflexivity.
Defined.

End ExecuteRuns.

(** * Facts about the management operations *)

Import Mgr.

Section PollFacts.

Variable name : string.
Variable to : svc.State.
Variable timeout : Z.

(** Calls take time, they do not give any back. *)
Lemma elapsed_nonneg (n : nat) : forall e, (0 <= elapsed e n)%Z.
Proof.
  induction n as [|n IH]; intros e; simpl; [lia|].
  specialize (IH (fun i => e (S i))). lia.
Qed.

Lemma flat_map_seq_S {A} (f : nat -> list A) (k : nat) :
  flat_map f (seq 0 (S k)) =
  (f 0%nat ++ flat_map (fun j => f (S j)) (seq 0 k))%list.
Proof.
  simpl. f_equal. rewrite <- seq_shift, flat_map_concat_map, map_map.
  now rewrite <- flat_map_concat_map.
Qed.

(** The loop, from any world, with fuel for the time left before the
    deadline: it returns after some [k] rounds of sleep and query.  [stat j],
    [flt j] and [clock j] are the status seen, the error of the query and the
    clock after round [j]; every round before the last saw another state in
    time, and the last one decides the result. *)
Lemma poll_spec (fuel : nat) : forall (st : svc.Status) (w : World),
  (1 <= fuel)%nat ->
  (timeout - now w < 300000000 * (Z.of_nat fuel - 1))%Z ->
  let stat j :=
    match j with O => st | S j' => status (env w (S (2 * j'))) end in
  let flt j :=
    match j with O => None | S j' => fault (env w (S (2 * j'))) end in
  let clock j :=
    (now w + elapsed (env w) (2 * j) + Z.of_nat j * 300000000)%Z in
  exists k r w',
    poll fuel name to timeout st w = (Ret r, w') /\
    trace w' =
      (trace w
       ++ flat_map (fun j => [(Sleep (300 * time.Millisecond)%Z, None);
                              (Query name, flt (S j))]) (seq 0 k))%list /\
    (forall n, env w' n = env w (2 * k + n)) /\
    (forall j, j < k ->
       svc.State_ (stat j) <> to /\ (clock j <= timeout)%Z /\ flt j = None) /\
    ((flt k = None /\ svc.State_ (stat k) = to /\ r = None) \/
     (flt k = None /\ svc.State_ (stat k) <> to /\ (timeout < clock k)%Z /\
      r = Some ("timeout waiting for service to go to state=" ++ fmt_d to)) \/
     (exists err, flt k = Some err /\
                  r = Some ("could not retrieve service status: " ++ err))).
Proof.
  induction fuel as [|f IH]; intros st w Hpos Hfuel stat flt clock; [lia|].
  simpl poll.
  destruct (svc.State_ st =? to)%N eqn:Est.
  - (* the loop condition is false *)
    apply N.eqb_eq in Est. exists 0%nat, None, w. simpl.
    rewrite app_nil_r. repeat split; auto; lia.
  - apply N.eqb_neq in Est.
    unfold bind at 1, time_Now at 1.
    destruct (timeout <? now w)%Z eqn:Et.
    + (* the deadline has passed *)
      apply Z.ltb_lt in Et.
      exists 0%nat, (Some ("timeout waiting for service to go to state=" ++ fmt_d to)), w.
      simpl. rewrite app_nil_r. repeat split; auto; try lia.
      right; left. repeat split; auto. unfold clock; simpl; lia.
    + apply Z.ltb_ge in Et.
      unfold bind, time_Sleep, perform, call; simpl.
      destruct (fault (env w 1)) as [err|] eqn:Ef.
      * (* the query fails *)
        eexists 1%nat, _, _. split; [reflexivity|]. simpl.
        split; [now rewrite Ef, <- app_assoc|].
        split; [reflexivity|].
        split.
        -- intros j Hj. assert (j = 0)%nat as -> by lia.
           repeat split; auto. unfold clock; simpl; lia.
        -- right; right. exists err; auto.
      * (* the query answers: next iteration *)
        match goal with
        | |- context [poll f name to timeout ?st1 ?w1] =>
            destruct (IH st1 w1) as (k & r & w' & Hp & Htr & Henv & Hall & Hres)
        end.
        { lia. }
        { simpl now. unfold time.Millisecond. lia. }
        exists (S k), r, w'. split; [exact Hp|].
        split.
        { rewrite Htr. simpl trace. rewrite flat_map_seq_S.
          rewrite <- !app_assoc. simpl. rewrite Ef.
          do 3 f_equal. apply flat_map_ext; intros j.
          do 5 f_equal. lia. }
        split.
        { intros n. rewrite Henv. simpl. f_equal. lia. }
        assert (Hflt : forall j, flt (S j) =
                  match j with O => None
                          | S j' => fault (env w (S (S (S (2 * j'))))) end).
        { intros [|j]; simpl; [exact Ef|]. do 2 f_equal. lia. }
        assert (Hstat : forall j, stat (S j) =
                  match j with O => status (env w 1)
                          | S j' => status (env w (S (S (S (2 * j'))))) end).
        { intros [|j]; simpl; [reflexivity|]. do 2 f_equal. lia. }
        assert (Hclock : forall j, clock (S j) =
                  (now w + Z.of_N (delay (env w 0%nat)) + 300000000
                   + Z.of_N (delay (env w 1%nat))
                   + elapsed (fun i => env w (S (S i))) (2 * j)
                   + Z.of_nat j * 300000000)%Z).
        { intros j. unfold clock.
          replace (2 * S j)%nat with (S (S (2 * j))) by lia.
          simpl elapsed. lia. }
        split.
        { intros [|j] Hj.
          - repeat split; auto. unfold clock; simpl; lia.
          - rewrite Hflt, Hstat, Hclock.
            destruct (Hall j ltac:(lia)) as (H1 & H2 & H3).
            simpl in H1, H2, H3. repeat split; auto. }
        rewrite Hflt, Hstat, Hclock.
        simpl in Hres. unfold time.Millisecond in Hres.
        destruct Hres as [(H1 & H2 & H3)|[(H1 & H2 & H3 & H4)|(err & H1 & H2)]].
        -- left; auto.
        -- right; left; repeat split; auto.
        -- right; right; eauto.
Qed.
(** Fuel beyond what the deadline allows changes nothing. *)
Lemma poll_more_fuel (fuel : nat) : forall (st : svc.Status) (w : World),
  (1 <= fuel)%nat ->
  (timeout - now w < 300000000 * (Z.of_nat fuel - 1))%Z ->
  poll (S fuel) name to timeout st w = poll fuel name to timeout st w.
Proof.
  induction fuel as [|f IH]; intros st w Hpos Hfuel; [lia|].
  change (poll (S (S f)) name to timeout st w)
    with ((if (svc.State_ st =? to)%N then ret None
           else
             t <- time_Now ;;
             if (timeout <? t)%Z then
               ret (Some ("timeout waiting for service to go to state="
                          ++ fmt_d to))
             else
               time_Sleep (300 * time.Millisecond)%Z ;;;
               q <- call (Query name) ;;
               match fault q with
               | Some err =>
                   ret (Some ("could not retrieve service status: " ++ err))
               | None => poll (S f) name to timeout (status q)
               end) w).
  change (poll (S f) name to timeout st w)
    with ((if (svc.State_ st =? to)%N then ret None
           else
             t <- time_Now ;;
             if (timeout <? t)%Z then
               ret (Some ("timeout waiting for service to go to state="
                          ++ fmt_d to))
             else
               time_Sleep (300 * time.Millisecond)%Z ;;;
               q <- call (Query name) ;;
               match fault q with
               | Some err =>
                   ret (Some ("could not retrieve service status: " ++ err))
               | None => poll f name to timeout (status q)
               end) w).
  destruct (svc.State_ st =? to)%N; [reflexivity|].
  unfold bind, time_Now, time_Sleep, perform, call.
  cbn -[poll String.append fmt_d Z.add Z.mul].
  destruct (timeout <? now w)%Z eqn:Et; [reflexivity|].
  apply Z.ltb_ge in Et.
  destruct (fault (env w 1)); [reflexivity|].
  apply IH; [lia|].
  cbn [now]. unfold time.Millisecond. lia.
Qed.

Lemma poll_fuel_enough (extra : nat) (st : svc.Status) (w : World) :
  timeout = (now w + 10 * time.Second)%Z ->
  poll (poll_fuel + extra) name to timeout st w =
  poll poll_fuel name to timeout st w.
Proof.
  intros Ht. induction extra as [|x IH].
  - now rewrite Nat.add_0_r.
  - rewrite <- plus_n_Sm, poll_more_fuel; [exact IH|unfold poll_fuel; lia|].
    unfold poll_fuel, time.Second in *. lia.
Qed.

End PollFacts.

Section ControlFacts.

Variable sw : ServiceWrapper.
Variable c : svc.Cmd.
Variable to : svc.State.

(** [ControlService] once Connect, OpenService and Control have succeeded:
    [answer 0] is the reply to Control, [answer j] the reply to the [j]-th
    Query, [clock j] what [time.Now()] gives at the check after it. *)
Lemma ControlService_spec (e : Env) (t0 : Z) :
  fault (e 0%nat) = None -> fault (e 1%nat) = None -> fault (e 2%nat) = None ->
  let answer j := e (2 + 2 * j)%nat in
  let clock j :=
    (t0 + elapsed e (3 + 2 * j) + Z.of_nat j * (300 * time.Millisecond))%Z in
  let deadline := (t0 + elapsed e 3 + 10 * time.Second)%Z in
  exists k r,
    result_of (ControlService sw c to) e t0 = Ret r /\
    calls_of (ControlService sw c to) e t0 =
      ([(Connect, None); (OpenService (serviceName sw), None);
        (Control (serviceName sw) c, None)]
       ++ flat_map (fun j => [(Sleep (300 * time.Millisecond)%Z, None);
                              (Query (serviceName sw), fault (answer (S j)))])
                   (seq 0 k)
       ++ [(Close (serviceName sw), fault (e (3 + 2 * k)%nat));
           (Disconnect, fault (e (4 + 2 * k)%nat))])%list /\
    (forall j, j < k ->
       svc.State_ (status (answer j)) <> to /\ (clock j <= deadline)%Z /\
       fault (answer j) = None) /\
    ((fault (answer k) = None /\ svc.State_ (status (answer k)) = to /\
      r = None) \/
     (fault (answer k) = None /\ svc.State_ (status (answer k)) <> to /\
      (deadline < clock k)%Z /\
      r = Some ("timeout waiting for service to go to state=" ++ fmt_d to)) \/
     (exists err, 0 < k /\ fault (answer k) = Some err /\
                  r = Some ("could not retrieve service status: " ++ err))).
Proof.
  intros H0 H1 H2 answer clock deadline.
  unfold result_of, calls_of, ControlService, start_world.
  unfold bind, defer, call, time_Now, ret;
    cbn -[poll Z.add Z.mul String.append fmt_d].
  rewrite H0; cbn -[poll Z.add Z.mul String.append fmt_d].
  rewrite H1; cbn -[poll Z.add Z.mul String.append fmt_d].
  rewrite H2; cbn -[poll Z.add Z.mul String.append fmt_d].
  match goal with
  | |- context [poll ?f ?n ?t ?tm ?st ?w] =>
      destruct (poll_spec n t tm f st w)
        as (k & r & w' & Hp & Htr & Henv & Hall & Hres)
  end.
  { unfold poll_fuel; lia. }
  { unfold poll_fuel, time.Second; simpl. lia. }
  rewrite Hp; clear Hp.
  cbn -[Z.add Z.mul String.append fmt_d] in Htr, Henv, Hall, Hres |- *.
  exists k, r. split; [reflexivity|].
  assert (Hstat : forall j,
             match j with
             | O => status (e 2%nat)
             | S j' => status (e (S (S (S (S (j' + (j' + 0))))))%nat)
             end = status (answer j)).
  { intros [|j]; [reflexivity|]. unfold answer. do 2 f_equal. lia. }
  assert (Hflt : forall j,
             match j with
             | O => None
             | S j' => fault (e (S (S (S (S (j' + (j' + 0))))))%nat)
             end = fault (answer j)).
  { intros [|j]; [now rewrite <- H2|]. unfold answer. do 2 f_equal. lia. }
  assert (Hclock : forall j,
     (t0 + Z.of_N (delay (e 0%nat)) + Z.of_N (delay (e 1%nat))
      + Z.of_N (delay (e 2%nat))
      + elapsed (fun i => e (S (S (S i)))) (j + (j + 0))
      + Z.of_nat j * 300000000 = clock j)%Z).
  { intros j. unfold clock, time.Millisecond. simpl elapsed. lia. }
  assert (Hdead : (t0 + Z.of_N (delay (e 0%nat)) + Z.of_N (delay (e 1%nat))
                   + Z.of_N (delay (e 2%nat)) + 10 * time.Second
                   = deadline)%Z).
  { unfold deadline. simpl elapsed. lia. }
  split.
  { rewrite Htr, !Henv. rewrite <- !app_assoc. simpl.
    do 3 f_equal. f_equal.
    - apply flat_map_ext; intros j.
      specialize (Hflt (S j)); simpl in Hflt. now rewrite Hflt.
    - do 3 f_equal; [f_equal; lia|]. do 3 f_equal. lia. }
  rewrite Hstat, Hflt, Hclock, Hdead in Hres.
  split.
  { intros j Hj. specialize (Hall j Hj).
    now rewrite Hstat, Hflt, Hclock, Hdead in Hall. }
  destruct Hres as [Hr|[Hr|(err & He & Hr)]]; auto.
  right; right. exists err. repeat split; auto.
  destruct k; [|lia]. unfold answer in He; simpl in He. congruence.
Qed.

End ControlFacts.

(** Unfold the monad at every call and split on what the environment
    answered. *)
Ltac run_calls :=
  unfold result_of, calls_of, start_world;
  unfold bind, defer, call, perform, ret;
  cbn -[String.append fmt_d String.eqb Ext];
  repeat (match goal with
          | |- context [match fault ?r with _ => _ end] =>
              let E := fresh "Ef" in destruct (fault r) eqn:E
          | |- context [if negb (flag ?r) then _ else _] =>
              let E := fresh "Eg" in destruct (flag r) eqn:E
          | |- context [if (Ext ?p =? "")%string then _ else _] =>
              let E := fresh "Ex" in destruct (Ext p =? "")%string eqn:E
          end;
          cbn -[String.append fmt_d String.eqb Ext]).

Section OpFacts.

Variable sw : ServiceWrapper.
Variable args : os_Args.

(** The operations without a loop: one case per answer of the environment. *)
Lemma StartService_reported (e : Env) (t0 : Z) :
  reported sw args OpStart e t0.
Proof.
  unfold reported, run_op, StartService.
  run_calls; repeat split; eauto; discriminate.
Qed.

Lemma RemoveService_reported (e : Env) (t0 : Z) :
  reported sw args OpRemove e t0.
Proof.
  unfold reported, run_op, RemoveService.
  run_calls; repeat split; eauto; discriminate.
Qed.

Lemma InstallService_reported (e : Env) (t0 : Z) :
  reported sw args OpInstall e t0.
Proof.
  unfold reported, run_op, InstallService, ExePath. run_calls.
  all: repeat split; eauto; try discriminate.
Qed.

End OpFacts.

(** The time taken by the calls grows with their number. *)
Lemma elapsed_mono (n m : nat) : forall e, (elapsed e n <= elapsed e (n + m))%Z.
Proof.
  induction n as [|n IH]; intros e; simpl.
  - apply elapsed_nonneg.
  - specialize (IH (fun i => e (S i))). lia.
Qed.

Section FirstFailure.

Variable chk : Call -> bool.

(** Without a first failure, every failed call is an unchecked one. *)
Lemma first_failure_none (tr : list Event) :
  first_failure chk tr = None ->
  forall c err, In (c, Some err) tr -> chk c = false.
Proof.
  induction tr as [|[c0 [e0|]] tr IH]; simpl; intros H c err Hin.
  - contradiction.
  - destruct (chk c0) eqn:E; [discriminate|].
    destruct Hin as [[= <- <-]|Hin]; [exact E|eauto].
  - destruct Hin as [[=]|Hin]; eauto.
Qed.

(** Successful calls are skipped. *)
Lemma first_failure_skip (pre rest : list Event) :
  Forall (fun ev => snd ev = None) pre ->
  first_failure chk (pre ++ rest) = first_failure chk rest.
Proof.
  induction 1 as [|[c0 e0] pre H _ IH]; simpl; [reflexivity|].
  simpl in H; subst; exact IH.
Qed.

(** So are the unchecked ones. *)
Lemma first_failure_unchecked (tr : list Event) :
  Forall (fun ev => chk (fst ev) = false) tr ->
  first_failure chk tr = None.
Proof.
  induction 1 as [|[c0 [e0|]] tr H _ IH]; simpl; auto.
  simpl in H; now rewrite H.
Qed.

(** The polling calls: only the last query can have failed. *)
Lemma first_failure_polls (name : string) (d : time.Duration)
      (flt : nat -> option error) (rest : list Event) (k : nat) :
  forall a,
    chk (Query name) = true ->
    (forall j, a < j < a + k -> flt j = None) ->
    first_failure chk
      (flat_map (fun j => [(Sleep d, None); (Query name, flt (S j))]) (seq a k)
       ++ rest) =
    match k, flt (a + k)%nat with
    | S _, Some err => Some (Query name, err, rest)
    | _, _ => first_failure chk rest
    end.
Proof.
  induction k as [|k IH]; intros a Hq Hall; simpl; [reflexivity|].
  destruct k as [|k].
  - simpl. replace (a + 1)%nat with (S a) by lia.
    destruct (flt (S a)); [now rewrite Hq|reflexivity].
  - rewrite (Hall (S a)) by lia.
    rewrite IH; auto.
    + replace (S a + S k)%nat with (a + S (S k))%nat by lia. reflexivity.
    + intros j Hj. apply Hall. lia.
Qed.

End FirstFailure.

Section ControlReported.

Variable sw : ServiceWrapper.
Variable args : os_Args.

(** [ControlService]: the three calls before the loop, then [poll_spec]. *)
Lemma ControlService_reported (c : svc.Cmd) (to : svc.State)
      (e : Env) (t0 : Z) :
  reported sw args (OpControl c to) e t0.
Proof.
  destruct (fault (e 0%nat)) as [err|] eqn:H0;
    [|destruct (fault (e 1%nat)) as [err|] eqn:H1;
      [|destruct (fault (e 2%nat)) as [err|] eqn:H2]].
  1-3: unfold reported, run_op, ControlService, result_of, calls_of, start_world;
       unfold bind, defer, call, ret;
       cbn -[String.append fmt_d poll];
       rewrite H0; cbn -[String.append fmt_d poll];
       try (rewrite H1; cbn -[String.append fmt_d poll]);
       try (rewrite H2; cbn -[String.append fmt_d poll]);
       repeat split; eauto; discriminate.
  destruct (ControlService_spec sw c to e t0 H0 H1 H2)
    as (k & r & Hres & Hcalls & Hall & Hcases).
  unfold reported, run_op. rewrite Hres, Hcalls.
  split; [eauto|].
  rewrite first_failure_skip by (repeat constructor).
  rewrite (first_failure_polls _ _ _ (fun j => fault (e (2 + 2 * j)%nat)))
    by (try reflexivity; intros j Hj; apply Hall; lia).
  rewrite (first_failure_unchecked _ [_; _]) by (repeat constructor).
  destruct k as [|k].
  - split; [exact I|reflexivity].
  - replace (0 + S k)%nat with (S k) by reflexivity.
    destruct Hcases as [(Hf & _ & ->)|[(Hf & _ & _ & ->)|(err & _ & Hf & ->)]];
      rewrite Hf.
    + split; [exact I|reflexivity].
    + split; [exact I|discriminate].
    + split; [split; reflexivity|discriminate].
Qed.

End ControlReported.

(** * The claims on the management operations *)

Section ManagementClaims.

Variable sw : ServiceWrapper.
Variable args : os_Args.

(** C3, amended.  For stop, pause and continue ([ControlService]), once
    Connect, OpenService and Control have succeeded: while the last status
    seen is not the target state, [ControlService] checks the deadline
    (10 s after the control was sent), sleeps 300 ms and queries again, at
    most 34 times.  It returns nil as soon as the target state is seen, the
    timeout error when a check finds the deadline passed with the state still
    not the target, and the wrapped error of a failed query.  Start
    ([StartService]) does not wait for a state: it returns nil once the start
    request is accepted, without sleeping or querying. *)
Theorem control_polls_until_target_or_timeout
        (c : svc.Cmd) (to : svc.State) (e : Env) (t0 : Z) :
  fault (e 0%nat) = None -> fault (e 1%nat) = None -> fault (e 2%nat) = None ->
  let answer j := e (2 + 2 * j)%nat in
  let clock j :=
    (t0 + elapsed e (3 + 2 * j) + Z.of_nat j * (300 * time.Millisecond))%Z in
  let deadline := (t0 + elapsed e 3 + 10 * time.Second)%Z in
  (exists k r,
     k <= 34 /\
     result_of (ControlService sw c to) e t0 = Ret r /\
     calls_of (ControlService sw c to) e t0 =
       ([(Connect, None); (OpenService (serviceName sw), None);
         (Control (serviceName sw) c, None)]
        ++ flat_map (fun j => [(Sleep (300 * time.Millisecond)%Z, None);
                               (Query (serviceName sw), fault (answer (S j)))])
                    (seq 0 k)
        ++ [(Close (serviceName sw), fault (e (3 + 2 * k)%nat));
            (Disconnect, fault (e (4 + 2 * k)%nat))])%list /\
     (forall j, j < k ->
        svc.State_ (status (answer j)) <> to /\ (clock j <= deadline)%Z /\
        fault (answer j) = None) /\
     ((fault (answer k) = None /\ svc.State_ (status (answer k)) = to /\
       r = None) \/
      (fault (answer k) = None /\ svc.State_ (status (answer k)) <> to /\
       (deadline < clock k)%Z /\
       r = Some ("timeout waiting for service to go to state=" ++ fmt_d to)) \/
      (exists err, 0 < k /\ fault (answer k) = Some err /\
                   r = Some ("could not retrieve service status: " ++ err)))) /\
  result_of (StartService sw) e t0 = Ret None /\
  calls_of (StartService sw) e t0 =
    [(Connect, None); (OpenService (serviceName sw), None);
     (Start (serviceName sw) ["is"; "manual-started"], None);
     (Close (serviceName sw), fault (e 3%nat)); (Disconnect, fault (e 4%nat))].
Proof.
  intros H0 H1 H2 answer clock deadline. split.
  - destruct (ControlService_spec sw c to e t0 H0 H1 H2)
      as (k & r & Hres & Hcalls & Hall & Hcases).
    exists k, r. repeat (split; [assumption|]); try assumption.
    split; [|repeat (split; [assumption|]); assumption].
    destruct k as [|k]; [lia|].
    destruct (Hall k ltac:(lia)) as (_ & Hk & _).
    pose proof (elapsed_mono 3 (2 * k) e) as Hm.
    unfold time.Millisecond, time.Second in Hk. lia.
  - unfold StartService, result_of, calls_of, start_world.
    unfold bind, defer, call, ret; cbn -[String.append].
    rewrite H0; cbn -[String.append].
    rewrite H1; cbn -[String.append].
    rewrite H2; cbn -[String.append]. split; reflexivity.
Qed.


(** C7, amended.  For each of InstallService, RemoveService, StartService
    and ControlService: the operation returns; when a call it checks fails
    (see [checked]: connect, create, start, control, query, the event-log
    calls, open and delete except in InstallService), it returns the error of
    [report] - the OS error behind a context prefix for open, start,
    control, query and the event-log calls, the OS error unchanged for
    connect, create and delete, and "service <name> is not installed" for
    RemoveService's open - and makes no further call but the deferred close
    and disconnect (and InstallService's delete): nothing is retried.  It
    returns nil only if no checked call failed.  InstallService goes on only
    when its open fails: it returns "service <name> already exists" when the
    open succeeds. *)
Theorem checked_failures_are_reported_without_retry
        (op : Op) (e : Env) (t0 : Z) :
  let tr := calls_of (run_op sw args op) e t0 in
  let res := result_of (run_op sw args op) e t0 in
  (exists r, res = Ret r) /\
  (forall c err post,
     first_failure (checked op) tr = Some (c, err, post) ->
     res = Ret (Some (report sw op c err)) /\
     forallb (allowed_after op) post = true) /\
  (res = Ret None ->
   forall c err, In (c, Some err) tr -> checked op c = false) /\
  (op = OpInstall ->
   (In (OpenService (serviceName sw), None) tr ->
    res = Ret (Some ("service " ++ serviceName sw ++ " already exists"))) /\
   (res = Ret None ->
    exists err, In (OpenService (serviceName sw), Some err) tr)).
Proof.
  intros tr res.
  assert (Hrep : reported sw args op e t0).
  { destruct op.
    - apply InstallService_reported.
    - apply RemoveService_reported.
    - apply StartService_reported.
    - apply ControlService_reported. }
  destruct Hrep as (Hret & Hfirst & Hnil).
  fold tr res in Hret, Hfirst, Hnil.
  split; [exact Hret|]. split; [|split].
  - intros c err post H. now rewrite H in Hfirst.
  - intros H. now apply first_failure_none, Hnil.
  - intros ->. subst tr res. clear.
    unfold run_op, InstallService, ExePath. run_calls.
    all: split; [intros H|intros H; try discriminate H].
    all: try (simpl in H; intuition congruence).
    all: eexists; simpl; eauto 10.
Qed.

(** C8, amended.  When the service was created and registering the
    event-log source fails, InstallService calls Delete on the new service
    (and ignores its result) before it returns the error; the service is
    then not left registered provided that Delete succeeded.  When a service
    of that name can be opened, InstallService returns an error without
    calling CreateService, and the registration is unchanged. *)
Theorem install_undoes_creation_when_event_log_fails
        (e : Env) (t0 : Z) (before : bool) :
  let name := serviceName sw in
  let tr := calls_of (InstallService sw args) e t0 in
  let res := result_of (InstallService sw args) e t0 in
  (forall c err post,
     first_failure is_eventlog_install tr = Some (c, err, post) ->
     (exists exepath,
        In (CreateService name exepath (serviceDisplayName sw)
              (serviceDescription sw) StartAutomatic ["is"; "auto-started"],
            None) tr) /\
     res = Ret (Some ("SetupEventLogSource() failed: " ++ err)) /\
     exists d f1 f2,
       post = [(Delete name, d); (Close name, f1); (Disconnect, f2)] /\
       (d = None -> registered name before tr = false)) /\
  (In (OpenService name, None) tr ->
   res = Ret (Some ("service " ++ name ++ " already exists")) /\
   existsb is_create tr = false /\
   registered name before tr = before).
Proof.
  intros name tr res. subst name tr res.
  unfold InstallService, ExePath. run_calls.
  all: split; [intros c err post H; try discriminate H|intros H].
  all: try (simpl in H; exfalso; intuition congruence).
  all: try (split; [reflexivity|split; reflexivity]).
  all: injection H as <- <- <-.
  all: split; [eexists; simpl; eauto 10|].
  all: split; [reflexivity|].
  all: do 3 eexists; split; [reflexivity|].
  all: intros Hd; try discriminate Hd.
  all: simpl; now rewrite String.eqb_refl.
Qed.


Variable unicodeLower : string -> string.



End ManagementClaims.

(** ** Concrete runs of the management operations *)

(** C3, amended, on a run: stop, seen after two polls. *)
Lemma control_polls_until_target_or_timeout_run :
  exists k r,
    k <= 34 /\
    result_of (ControlService demo svc.Stop svc.Stopped) stops_slowly 0 = Ret r /\
    r = None /\
    List.length (calls_of (ControlService demo svc.Stop svc.Stopped) stops_slowly 0)
    = 5 + 2 * k.
Proof.
  destruct (control_polls_until_target_or_timeout demo svc.Stop svc.Stopped
              stops_slowly 0 eq_refl eq_refl eq_refl)
    as [(k & r & Hk & Hres & Hcalls & _) _].
  exists k, r. split; [exact Hk|]. split; [exact Hres|]. split.
  - vm_compute in Hres. now injection Hres as <-.
  - rewrite Hcalls, !length_app, flat_map_constant_length with (c := 2).
    + rewrite length_seq. simpl. lia.
    + reflexivity.
Defined.

(** C3 as stated fails for start: the service never reaches Running, yet
    [StartService] returns nil at once, having neither slept nor queried. *)
Lemma start_service_does_not_poll :
  (forall n, svc.State_ (status (never_running n)) = svc.StartPending) /\
  result_of (StartService demo) never_running 0 = Ret None /\
  calls_of (StartService demo) never_running 0 =
    [(Connect, None); (OpenService "demo", None);
     (Start "demo" ["is"; "manual-started"], None);
     (Close "demo", None); (Disconnect, None)] /\
  existsb is_poll (calls_of (StartService demo) never_running 0) = false.
Proof. repeat split. Qed.

(** C7 as stated fails: InstallService returns nil although its OpenService
    call failed; StartService returns the error of Connect as it is; and
    RemoveService's error for a failed OpenService does not contain the OS
    error. *)
Lemma failed_calls_not_always_reported_with_context :
  (result_of (InstallService demo (cli ["install"])) fresh_install 0 = Ret None /\
   In (OpenService "demo",
       Some "The specified service does not exist as an installed service.")
      (calls_of (InstallService demo (cli ["install"])) fresh_install 0)) /\
  result_of (StartService demo) (script [failing "Access is denied."]) 0
    = Ret (Some "Access is denied.") /\
  result_of (RemoveService demo) (script [ok; failing "Access is denied."]) 0
    = Ret (Some "service demo is not installed").
Proof.
  repeat split. vm_compute. auto 10.
Qed.

(** C7, amended, on a run: the control request is refused. *)
Lemma checked_failures_are_reported_without_retry_run :
  first_failure (checked (OpControl svc.Pause svc.Paused))
    (calls_of (ControlService demo svc.Pause svc.Paused)
       (script [ok; ok; failing "The service cannot accept control messages at this time."]) 0)
  = Some (Control "demo" svc.Pause,
          "The service cannot accept control messages at this time.",
          [(Close "demo", None); (Disconnect, None)]) /\
  result_of (ControlService demo svc.Pause svc.Paused)
    (script [ok; ok; failing "The service cannot accept control messages at this time."]) 0
  = Ret (Some "could not send control=2: The service cannot accept control messages at this time.").
Proof.
  split; [reflexivity|].
  exact (proj1 (proj1 (proj2
    (checked_failures_are_reported_without_retry demo (cli ["pause"])
       (OpControl svc.Pause svc.Paused)
       (script [ok; ok; failing "The service cannot accept control messages at this time."]) 0))
    _ _ _ eq_refl)).
Defined.

(** C8 as stated fails when the Delete fails too: InstallService returns
    the event-log error and the service it created is still registered. *)
Lemma failed_install_can_leave_the_service :
  let e := eventlog_refused (failing "The specified service has been marked for deletion.") in
  result_of (InstallService demo (cli ["install"])) e 0
    = Ret (Some "SetupEventLogSource() failed: Access is denied.") /\
  calls_of (InstallService demo (cli ["install"])) e 0 =
    [(Abs "C:\svc\demo.exe", None); (Stat "C:\svc\demo.exe", None);
     (Connect, None);
     (OpenService "demo",
      Some "The specified service does not exist as an installed service.");
     (CreateService "demo" "C:\svc\demo.exe" "Demo" "a demo service"
        StartAutomatic ["is"; "auto-started"], None);
     (EventlogInstall "demo" 7, Some "Access is denied.");
     (Delete "demo", Some "The specified service has been marked for deletion.");
     (Close "demo", None); (Disconnect, None)] /\
  registered "demo" false (calls_of (InstallService demo (cli ["install"])) e 0)
    = true.
Proof. repeat split. Qed.

(** C8, amended, on a run: the Delete succeeds. *)
Lemma install_undoes_creation_when_event_log_fails_run :
  first_failure is_eventlog_install
    (calls_of (InstallService demo (cli ["install"])) (eventlog_refused ok) 0)
  = Some (EventlogInstall "demo" 7, "Access is denied.",
          [(Delete "demo", None); (Close "demo", None); (Disconnect, None)]) /\
  result_of (InstallService demo (cli ["install"])) (eventlog_refused ok) 0
    = Ret (Some "SetupEventLogSource() failed: Access is denied.") /\
  registered "demo" false
    (calls_of (InstallService demo (cli ["install"])) (eventlog_refused ok) 0)
    = false.
Proof.
  assert (H : first_failure is_eventlog_install
                (calls_of (InstallService demo (cli ["install"]))
                   (eventlog_refused ok) 0)
              = Some (EventlogInstall "demo" 7, "Access is denied.",
                      [(Delete "demo", None); (Close "demo", None);
                       (Disconnect, None)])).
  { vm_compute. reflexivity. }
  split; [exact H|].
  destruct (proj1 (install_undoes_creation_when_event_log_fails
                     demo (cli ["install"]) (eventlog_refused ok) 0 false)
              _ _ _ H)
    as (_ & Hres & d & f1 & f2 & Hpost & Hreg).
  split; [exact Hres|].
  apply Hreg. now injection Hpost as <- _ _.
Defined.


(** * More on [Execute] *)

Section ExecuteShape.

Import Exec ExecObs.

Variable sw : ServiceWrapper.
Variable args : list string.

Lemma is_stop_not_interrogate (c : svc.ChangeRequest) :
  is_stop c = true -> is_interrogate c = false.
Proof.
  unfold is_stop, is_interrogate.
  destruct (svc.Cmd_ c =? svc.Stop)%N eqn:E1; simpl.
  - apply N.eqb_eq in E1; rewrite E1; reflexivity.
  - intros E2. apply N.eqb_eq in E2; rewrite E2; reflexivity.
Qed.

Lemma on_request_stop (c : svc.ChangeRequest) :
  is_stop c = true ->
  on_request args c = (PWaitStop, Recv c :: stopping args c).
Proof.
  intros H. unfold on_request.
  now rewrite (is_stop_not_interrogate c H), H.
Qed.

Lemma on_request_serving (c : svc.ChangeRequest) :
  is_stop c = false ->
  on_request args c = (PSelect, served args c).
Proof.
  intros H. unfold served, on_request.
  destruct (is_interrogate c); [reflexivity|]. now rewrite H.
Qed.

(** The ways through the loop: requests that are served, then nothing more,
    or the end by [ctx.Done()], or the end by Stop/Shutdown, each before or
    after the end of the wait. *)
Lemma run_select_shape (ins : list Input) (pc : Pc) (evs : list Event) :
  run sw args PSelect ins = Some (pc, evs) ->
  exists reqs tail_ins tail_evs,
    ins = (map InReq reqs ++ tail_ins)%list /\
    forallb (fun c => negb (is_stop c)) reqs = true /\
    evs = (flat_map (served args) reqs ++ tail_evs)%list /\
    ((tail_ins = [] /\ pc = PSelect /\ tail_evs = []) \/
     (tail_ins = [InDone] /\ pc = PWaitDone /\
      tail_evs = [CtxDone;
                  LogInfo 1%N "The wrapped service cancelled the execution"]) \/
     (tail_ins = [InDone; InWaited] /\ pc = PReturned false 0%N /\
      tail_evs = (CtxDone
                  :: LogInfo 1%N "The wrapped service cancelled the execution"
                  :: finish)) \/
     (exists c, is_stop c = true /\ tail_ins = [InReq c] /\ pc = PWaitStop /\
                tail_evs = Recv c :: stopping args c) \/
     (exists c, is_stop c = true /\ tail_ins = [InReq c; InWaited] /\
                pc = PReturned false 0%N /\
                tail_evs = (Recv c :: stopping args c ++ finish)%list)).
Proof.
  revert evs; induction ins as [|i ins IH]; intros evs; simpl.
  - intros [= <- <-]. exists [], [], []. repeat split; auto.
  - destruct i as [r| | |c]; try discriminate.
    + (* <-ctx.Done() *)
      destruct (run sw args PWaitDone ins) as [[pc1 evs1]|] eqn:E;
        [|discriminate].
      intros [= <- <-].
      apply run_wait_done in E as [(-> & -> & ->)|(-> & -> & ->)].
      * exists [], [InDone], [CtxDone;
          LogInfo 1%N "The wrapped service cancelled the execution"].
        repeat split; auto.
      * exists [], [InDone; InWaited],
          (CtxDone :: LogInfo 1%N "The wrapped service cancelled the execution"
           :: finish).
        repeat split; auto 6.
    + (* c := <-r *)
      destruct (is_stop c) eqn:Hs.
      * rewrite (on_request_stop c Hs).
        destruct (run sw args PWaitStop ins) as [[pc1 evs1]|] eqn:E;
          [|discriminate].
        intros [= <- <-].
        apply run_wait_stop in E as [(-> & -> & ->)|(-> & -> & ->)].
        -- exists [], [InReq c], (Recv c :: stopping args c).
           repeat split; auto.
           right; right; right; left. exists c; auto.
        -- exists [], [InReq c; InWaited],
             (Recv c :: stopping args c ++ finish)%list.
           repeat split; auto.
           right; right; right; right. exists c; auto.
      * rewrite (on_request_serving c Hs).
        destruct (run sw args PSelect ins) as [[pc1 evs1]|] eqn:E;
          [|discriminate].
        intros [= <- <-].
        destruct (IH _ eq_refl) as (reqs & ti & te & -> & Hall & -> & Hcase).
        exists (c :: reqs), ti, te. simpl. rewrite Hs, app_assoc.
        repeat split; auto.
Qed.


Lemma count_app (p : Event -> bool) (t1 t2 : list Event) :
  count p (t1 ++ t2) = count p t1 + count p t2.
Proof. unfold count. now rewrite filter_app, length_app. Qed.

Lemma count_cons (p : Event -> bool) (e : Event) (t : list Event) :
  count p (e :: t) = (if p e then 1 else 0) + count p t.
Proof. unfold count; simpl. now destruct (p e). Qed.

(** Serving a request is no cancel, wait, return or end of context. *)
Lemma served_quiet (p : Event -> bool) (reqs : list svc.ChangeRequest) :
  (forall c s, p (Recv c) = false /\ p (Send s) = false) ->
  (forall d, p (Sleep d) = false) ->
  (forall n m, p (LogError n m) = false) ->
  forallb (fun c => negb (is_stop c)) reqs = true ->
  count p (flat_map (served args) reqs) = 0.
Proof.
  intros Hrs Hsl Hlog. induction reqs as [|c reqs IH]; simpl; [reflexivity|].
  intros H. apply andb_true_iff in H as [Hc Hall].
  rewrite count_app, (IH Hall), Nat.add_0_r.
  unfold served, on_request, count.
  destruct (is_interrogate c); simpl.
  - destruct (Hrs c (svc.CurrentStatus c)) as [-> ->]. now rewrite Hsl.
  - apply negb_true_iff in Hc. rewrite Hc; simpl.
    destruct (Hrs c (svc.CurrentStatus c)) as [-> _]. now rewrite Hlog.
Qed.

Lemma served_received (reqs : list svc.ChangeRequest) :
  received (flat_map (served args) reqs) = reqs.
Proof.
  induction reqs as [|c reqs IH]; simpl; [reflexivity|].
  rewrite received_app, IH. unfold served.
  now rewrite (proj2 (on_request_sent args c)).
Qed.

Ltac quiet p H :=
  rewrite (served_quiet p _ ltac:(intros; split; reflexivity)
             ltac:(reflexivity) ltac:(reflexivity) H).

(** Every execution, by its inputs: before Schedule has returned, after a
    failed Schedule, or through the loop. *)
Lemma Execute_shape (ins : list Input) (pc : Pc) (tr : list Event) :
  Execute sw args ins = Some (pc, tr) ->
  (ins = [] /\ pc = PSchedule /\ tr = [Send startPending]) \/
  (exists err evs,
     ins <> [] /\ hd InWaited ins = InSchedule (Some err) /\
     run sw args PWaitFail (tl ins) = Some (pc, evs) /\
     tr = (Send startPending :: ScheduleRet (Some err)
           :: LogError 1%N ("When scheduling the service '"
                            ++ serviceName sw ++ "': " ++ err)
           :: Cancel :: evs)) \/
  (exists evs,
     hd InWaited ins = InSchedule None /\ ins <> [] /\
     run sw args PSelect (tl ins) = Some (pc, evs) /\
     tr = Send startPending :: ScheduleRet None :: Send running :: evs).
Proof.
  intros HE.
  destruct (Execute_inputs _ _ _ _ _ HE) as [H|(r & ins' & ->)]; [auto|].
  destruct r as [err|].
  - apply Execute_schedule_failed in HE as (evs & Hrun & ->).
    right; left. exists err, evs. repeat split; auto. discriminate.
  - apply Execute_scheduled in HE as (evs & Hrun & ->).
    right; right. exists evs. repeat split; auto. discriminate.
Qed.

(** X1.  Whenever [Execute] has returned, [ssec] is false and [errno] is 1
    if Schedule had returned an error and 0 otherwise; the return is the last
    thing it did, and it happened once. *)
Theorem execute_return_codes
        (r : option error) (ins : list Input) (b : bool) (n : N)
        (tr : list Event) :
  Execute sw args (InSchedule r :: ins) = Some (PReturned b n, tr) ->
  b = false /\
  n = match r with Some _ => 1%N | None => 0%N end /\
  exists tr', tr = (tr' ++ [Return b n])%list /\ count is_return tr' = 0.
Proof.
  intros HE. destruct r as [err|].
  - apply Execute_schedule_failed in HE as (evs & Hrun & ->).
    apply run_wait_fail in Hrun as [(_ & [=] & _)|(_ & [= -> ->] & ->)].
    repeat split.
    eexists (_ :: _ :: _ :: _ :: [_]). split; reflexivity.
  - apply Execute_scheduled in HE as (evs & Hrun & ->).
    apply run_select_shape in Hrun
      as (reqs & ti & te & _ & Hall & -> & Hcase).
    destruct Hcase as [(_ & [=] & _)|[(_ & [=] & _)|[(_ & [= -> ->] & ->)|
                      [(c & _ & _ & [=] & _)|(c & _ & _ & [= -> ->] & ->)]]]].
    + repeat split.
      exists (Send startPending :: ScheduleRet None :: Send running
              :: flat_map (served args) reqs
              ++ [CtxDone;
                  LogInfo 1%N "The wrapped service cancelled the execution";
                  Waited; Send stopPending])%list.
      split.
      * simpl. do 3 f_equal. rewrite <- app_assoc. reflexivity.
      * change (count is_return (?a :: ?b :: ?c :: ?l)) with (count is_return l).
        rewrite count_app. quiet is_return Hall. reflexivity.
    + repeat split.
      exists (Send startPending :: ScheduleRet None :: Send running
              :: flat_map (served args) reqs
              ++ [Recv c; LogInfo 1%N (testOutput args c); Cancel;
                  Waited; Send stopPending])%list.
      split.
      * simpl. do 3 f_equal. rewrite <- app_assoc. reflexivity.
      * change (count is_return (?a :: ?b :: ?c :: ?l)) with (count is_return l).
        rewrite count_app. quiet is_return Hall. reflexivity.
Qed.


(** The eight kinds of executions, for proofs by cases. *)
Ltac by_shape HE :=
  let H := fresh "Hshape" in
  pose proof (Execute_shape _ _ _ HE) as H;
  destruct H as [(-> & -> & ->)|[(err & evs & _ & _ & Hrun & ->)|
                                 (evs & _ & _ & Hrun & ->)]];
  [ | apply run_wait_fail in Hrun as [(_ & -> & ->)|(_ & -> & ->)]
    | apply run_select_shape in Hrun
        as (reqs & ti & te & _ & Hall & -> & Hcase);
      destruct Hcase as [(_ & -> & ->)|[(_ & -> & ->)|[(_ & -> & ->)|
                        [(c & Hc & _ & -> & ->)|(c & Hc & _ & -> & ->)]]]] ].

(** The ends of [wg.Wait()] in a trace of the machine.  The machine does
    the end of the wait, the last send and the return in one reaction, so
    this count is 1 exactly at the return. *)
Lemma waited_by_program_point
      (ins : list Input) (pc : Pc) (tr : list Event) :
  Execute sw args ins = Some (pc, tr) ->
  count is_waited tr = if returned pc then 1 else 0.
Proof.
  intros HE. by_shape HE; try reflexivity.
  all: rewrite !count_cons, count_app; quiet is_waited Hall; reflexivity.
Qed.

(** X2.  In no execution does [wg.Wait()] return twice; and when [Execute]
    has returned, [wg.Wait()] has returned exactly once, before the return:
    [Execute] never returns without having waited for the user task. *)
Theorem execute_waits_once_before_returning
        (ins : list Input) (pc : Pc) (tr : list Event) :
  Execute sw args ins = Some (pc, tr) ->
  count is_waited tr <= 1 /\
  (returned pc = true ->
   exists pre post,
     tr = (pre ++ Waited :: post)%list /\
     count is_waited pre = 0 /\ count is_return pre = 0 /\
     count is_waited post = 0 /\ count is_return post = 1).
Proof.
  intros HE. split.
  - rewrite (waited_by_program_point _ _ _ HE). destruct (returned pc); lia.
  - intros Hret. by_shape HE; try discriminate Hret.
    + exists [Send startPending; ScheduleRet (Some err);
              LogError 1%N ("When scheduling the service '"
                            ++ serviceName sw ++ "': " ++ err);
              Cancel], [Return false 1%N].
      repeat split.
    + exists (Send startPending :: ScheduleRet None :: Send running
              :: flat_map (served args) reqs
              ++ [CtxDone;
                  LogInfo 1%N "The wrapped service cancelled the execution"])%list,
             [Send stopPending; Return false 0%N].
      split; [simpl; now rewrite <- app_assoc|].
      rewrite !count_cons, !count_app.
      quiet is_waited Hall. quiet is_return Hall. repeat split.
    + exists (Send startPending :: ScheduleRet None :: Send running
              :: flat_map (served args) reqs
              ++ [Recv c; LogInfo 1%N (testOutput args c); Cancel])%list,
             [Send stopPending; Return false 0%N].
      split; [simpl; now rewrite <- app_assoc|].
      rewrite !count_cons, !count_app.
      quiet is_waited Hall. quiet is_return Hall. repeat split.
Qed.

(** X3.  [Execute] calls [cancel()] exactly once when Schedule failed or a
    Stop/Shutdown request was received, and never otherwise; in particular
    not when it leaves the loop because the context was already done. *)
Theorem execute_cancels_at_most_once
        (ins : list Input) (pc : Pc) (tr : list Event) :
  Execute sw args ins = Some (pc, tr) ->
  count is_cancel tr =
    (if existsb is_schedule_error tr || existsb is_stop (received tr)
     then 1 else 0) /\
  (existsb is_ctx_done tr = true -> count is_cancel tr = 0).
Proof.
  intros HE.
  assert (Hrecv : forall reqs,
             forallb (fun c => negb (is_stop c)) reqs = true ->
             existsb is_stop reqs = false).
  { induction reqs as [|c0 reqs IH]; simpl; [reflexivity|].
    intros H. apply andb_true_iff in H as [H1 H2].
    apply negb_true_iff in H1. now rewrite H1, IH. }
  assert (Hsched : forall reqs tl,
             existsb is_schedule_error (flat_map (served args) reqs ++ tl)
             = existsb is_schedule_error tl).
  { induction reqs as [|c0 reqs IH]; intros tl; simpl; [reflexivity|].
    rewrite <- app_assoc, existsb_app, IH.
    unfold served, on_request.
    destruct (is_interrogate c0); [reflexivity|].
    destruct (is_stop c0); reflexivity. }
  by_shape HE; try (split; [reflexivity|discriminate]).
  all: rewrite !count_cons, count_app; quiet is_cancel Hall.
  all: cbn [existsb is_schedule_error orb received];
    rewrite Hsched, received_app, served_received, existsb_app, (Hrecv _ Hall).
  all: cbn [existsb is_schedule_error orb received stopping finish app];
    rewrite ?Hc; split; try reflexivity.
  all: try discriminate.
  all: rewrite existsb_app; cbn [existsb is_ctx_done orb app].
  all: rewrite ?orb_false_r.
  all: intros H; exfalso.
  all: assert (Hq : count is_ctx_done (flat_map (served args) reqs) = 0)
    by (quiet is_ctx_done Hall; reflexivity).
  all: unfold count in Hq; apply length_zero_iff_nil in Hq.
  all: apply existsb_exists in H as (x & Hin & Hx).
  all: assert (In x (filter is_ctx_done (flat_map (served args) reqs)))
    by (apply filter_In; auto).
  all: rewrite Hq in *; contradiction.
Qed.


Lemma run_serving (reqs : list svc.ChangeRequest) :
  forallb (fun c => negb (is_stop c)) reqs = true ->
  run sw args PSelect (map InReq reqs)
  = Some (PSelect, flat_map (served args) reqs).
Proof.
  induction reqs as [|c reqs IH]; simpl; [reflexivity|].
  intros H. apply andb_true_iff in H as [Hc Hall].
  apply negb_true_iff in Hc.
  now rewrite (on_request_serving c Hc), (IH Hall).
Qed.

Lemma serving_requests (reqs : list svc.ChangeRequest) (rest : list Input) :
  forallb serving (map InReq reqs ++ rest)
  = forallb (fun c => negb (is_stop c)) reqs && forallb serving rest.
Proof.
  induction reqs as [|c reqs IH]; simpl; [reflexivity|].
  now rewrite IH, andb_assoc.
Qed.

(** X4.  After a successful Schedule, any sequence of requests none of
    which is Stop or Shutdown is served one after the other and leaves
    [Execute] at the select; and [Execute] is at the select only after such a
    sequence: only [ctx.Done()] or a Stop/Shutdown request takes it out of
    the loop. *)
Theorem execute_serves_until_stopped :
  (forall reqs,
     forallb (fun c => negb (is_stop c)) reqs = true ->
     Execute sw args (InSchedule None :: map InReq reqs)
     = Some (PSelect,
             Send startPending :: ScheduleRet None :: Send running
             :: flat_map (served args) reqs)) /\
  (forall ins pc tr,
     Execute sw args (InSchedule None :: ins) = Some (pc, tr) ->
     (pc = PSelect <-> forallb serving ins = true)).
Proof.
  split.
  - intros reqs H. unfold Execute; simpl. now rewrite (run_serving reqs H).
  - intros ins pc tr HE.
    apply Execute_scheduled in HE as (evs & Hrun & ->).
    apply run_select_shape in Hrun
      as (reqs & ti & te & -> & Hall & -> & Hcase).
    rewrite serving_requests, Hall; simpl.
    destruct Hcase as [(-> & -> & _)|[(-> & -> & _)|[(-> & -> & _)|
                      [(c & Hc & -> & -> & _)|(c & Hc & -> & -> & _)]]]];
      simpl; rewrite ?Hc; simpl; split; congruence.
Qed.


(** X5.  An execution with a successful Schedule that has returned ended
    in one of two ways, both finishing with the end of the wait, StopPending
    and the return of (false, 0): the context was done and logged, without
    any [cancel()]; or a Stop/Shutdown request was received, logged and
    followed by the one [cancel()]. *)
Theorem execute_reports_stop_pending_on_both_exits
        (ins : list Input) (b : bool) (n : N) (tr : list Event) :
  Execute sw args (InSchedule None :: ins) = Some (PReturned b n, tr) ->
  exists pre,
    tr = (pre ++ [Waited; Send stopPending; Return false 0%N])%list /\
    ((exists pre', pre = (pre' ++ [CtxDone;
         LogInfo 1%N "The wrapped service cancelled the execution"])%list /\
       count is_cancel tr = 0) \/
     (exists pre' c, is_stop c = true /\
        pre = (pre' ++ [Recv c; LogInfo 1%N (testOutput args c); Cancel])%list /\
        count is_cancel tr = 1)).
Proof.
  intros HE.
  apply Execute_scheduled in HE as (evs & Hrun & ->).
  apply run_select_shape in Hrun
    as (reqs & ti & te & _ & Hall & -> & Hcase).
  set (head := Send startPending :: ScheduleRet None :: Send running
               :: flat_map (served args) reqs).
  destruct Hcase as [(_ & [=] & _)|[(_ & [=] & _)|[(_ & _ & ->)|
                    [(c & _ & _ & [=] & _)|(c & Hc & _ & _ & ->)]]]].
  - exists (head ++ [CtxDone;
              LogInfo 1%N "The wrapped service cancelled the execution"])%list.
    split; [unfold head; simpl; now rewrite <- app_assoc|].
    left. exists head. split; [reflexivity|].
    rewrite !count_cons, count_app. quiet is_cancel Hall. reflexivity.
  - exists (head ++ [Recv c; LogInfo 1%N (testOutput args c); Cancel])%list.
    split; [unfold head; simpl; now rewrite <- app_assoc|].
    right. exists head, c. split; [exact Hc|]. split; [reflexivity|].
    rewrite !count_cons, count_app. quiet is_cancel Hall. reflexivity.
Qed.

End ExecuteShape.

(** * More on the management operations *)

Import MgrObs.

Section MoreManagement.

Variable sw : ServiceWrapper.
Variable args : os_Args.

(** X6.  [RunService] either ran the service, and then returns the error
    of [svc.Run]/[debug.Run] as it is (nil for nil), having logged the start
    before and the stop or the failure after, and closed the log as its last
    call; or, outside debug mode only, [eventlog.Open] failed and it returns
    that error behind "when opening the eventlog: " without any other
    call. *)
Theorem run_service_returns_what_run_returned
        (isDebug : bool) (e : Env) (t0 : Z) :
  let tr := calls_of (RunService sw isDebug) e t0 in
  let res := result_of (RunService sw isDebug) e t0 in
  match outcome_of is_run tr with
  | Some r =>
      res = Ret r /\
      exists opened f1 f2 f3,
        tr = [opened;
              (ElogInfo 1 ("starting " ++ serviceName sw ++ " service"), f1);
              (Run isDebug (serviceName sw), r);
              (match r with
               | Some err =>
                   ElogError 1 (serviceName sw ++ " service failed: " ++ err)
               | None => ElogInfo 1 (serviceName sw ++ " service stopped")
               end, f2);
              (ElogClose, f3)] /\
        opened = (if isDebug then DebugNew (serviceName sw)
                  else EventlogOpen (serviceName sw), None)
  | None =>
      isDebug = false /\
      exists err,
        fault (e 0%nat) = Some err /\
        res = Ret (Some ("when opening the eventlog: " ++ err)) /\
        tr = [(EventlogOpen (serviceName sw), Some err)]
  end.
Proof.
  unfold RunService. destruct isDebug; run_calls.
  all: first [ split; [reflexivity|]; do 4 eexists; split; reflexivity
             | split; [reflexivity|];
               match goal with
               | H : fault _ = Some ?x |- _ => exists x
               end; repeat split; assumption ].
Qed.


(** X7.  [ExePath] makes one to three calls, all of them [filepath.Abs]
    or [os.Stat], the first being [Abs] of [os.Args[0]].  With an error it
    returns the empty path.  Without, the path it returns is the one of its
    last [os.Stat], which succeeded on a non-directory: the absolute path,
    or, when that one has no extension and was missing or a directory, the
    absolute path with ".exe" appended. *)
Theorem exe_path_returns_a_file_it_probed (e : Env) (t0 : Z) :
  let tr := calls_of (ExePath args) e t0 in
  let abs := text (e 0%nat) in
  exists p err,
    result_of (ExePath args) e t0 = Ret (p, err) /\
    forallb (fun ev => is_path_call (fst ev)) tr = true /\
    1 <= List.length tr <= 3 /\
    hd (Abs "", None) tr = (Abs (Args0 args), fault (e 0%nat)) /\
    (err <> None -> p = "") /\
    (err = None ->
     last tr (Abs "", None) = (Stat p, None) /\
     ((p = abs /\ flag (e 1%nat) = false /\ List.length tr = 2) \/
      (p = abs ++ ".exe" /\ Ext abs = "" /\ flag (e 2%nat) = false /\
       List.length tr = 3 /\
       (fault (e 1%nat) <> None \/ flag (e 1%nat) = true)))).
Proof.
  unfold ExePath. run_calls.
  all: do 2 eexists; split; [reflexivity|].
  all: split; [reflexivity|]. all: split; [simpl; lia|].
  all: split; [reflexivity|].
  all: split; [try reflexivity; intros H; now contradiction H|].
  all: try discriminate.
  all: intros _; split; [reflexivity|].
  all: try (left; repeat split; reflexivity).
  all: right; repeat split; auto.
  all: try (now apply String.eqb_eq).
  all: left; discriminate.
Qed.


(** X8.  The error of [ExePath] is the one of the last thing it tried: of
    [filepath.Abs]; or, for a path with an extension, of the probe of that
    path (its [os.Stat] error, or "<path> is directory"); or, for a path
    without extension, of the probe of <path>.exe - the outcome of the first
    probe is then not reported. *)
Theorem exe_path_reports_the_last_probe
        (e : Env) (t0 : Z) (p : string) (err : error) :
  result_of (ExePath args) e t0 = Ret (p, Some err) ->
  let tr := calls_of (ExePath args) e t0 in
  let abs := text (e 0%nat) in
  (fault (e 0%nat) = Some err /\ List.length tr = 1) \/
  (Ext abs <> "" /\ List.length tr = 2 /\
   (fault (e 1%nat) = Some err \/
    (fault (e 1%nat) = None /\ flag (e 1%nat) = true /\
     err = abs ++ " is directory"))) \/
  (Ext abs = "" /\ List.length tr = 3 /\
   (fault (e 2%nat) = Some err \/
    (fault (e 2%nat) = None /\ flag (e 2%nat) = true /\
     err = (abs ++ ".exe") ++ " is directory"))).
Proof.
  unfold ExePath. run_calls; intros [= <- <-] || intros [=].
  all: repeat match goal with
              | H : (_ =? _)%string = true |- _ => apply String.eqb_eq in H
              | H : (_ =? _)%string = false |- _ => apply String.eqb_neq in H
              end.
  all: first
         [ left; split; reflexivity
         | right; left; split; [assumption|]; split; [reflexivity|];
           first [left; reflexivity | right; repeat split; reflexivity]
         | right; right; split; [assumption|]; split; [reflexivity|];
           first [left; reflexivity | right; repeat split; reflexivity] ].
Qed.

(** X9.  When [ExePath] fails, [InstallService] returns its error as it
    is and makes no call of its own: the service manager is not contacted
    and nothing is registered. *)
Theorem install_needs_the_executable
        (e : Env) (t0 : Z) (p : string) (err : error) :
  result_of (ExePath args) e t0 = Ret (p, Some err) ->
  result_of (InstallService sw args) e t0 = Ret (Some err) /\
  calls_of (InstallService sw args) e t0 = calls_of (ExePath args) e t0 /\
  registered (serviceName sw) false (calls_of (InstallService sw args) e t0)
  = false.
Proof.
  unfold InstallService, ExePath.
  run_calls; intros [= <- <-] || intros [=]; repeat split.
Qed.

(** X10.  When [InstallService] returns nil, its calls are those of
    [ExePath], then Connect, an OpenService that failed, CreateService for
    the path [ExePath] returned with automatic start, the event-log
    registration for errors, warnings and infos, Close and Disconnect; the
    service is registered afterwards. *)
Theorem install_success_registers_the_service
        (e : Env) (t0 : Z) (before : bool) :
  result_of (InstallService sw args) e t0 = Ret None ->
  exists exepath err f1 f2,
    result_of (ExePath args) e t0 = Ret (exepath, None) /\
    calls_of (InstallService sw args) e t0 =
      (calls_of (ExePath args) e t0
       ++ [(Connect, None);
           (OpenService (serviceName sw), Some err);
           (CreateService (serviceName sw) exepath (serviceDisplayName sw)
              (serviceDescription sw) StartAutomatic ["is"; "auto-started"],
            None);
           (EventlogInstall (serviceName sw) 7, None);
           (Close (serviceName sw), f1); (Disconnect, f2)])%list /\
    registered (serviceName sw) before
      (calls_of (InstallService sw args) e t0) = true.
Proof.
  unfold InstallService, ExePath.
  run_calls; intros [=].
  all: do 4 eexists; split; [reflexivity|]; split; [reflexivity|].
  all: simpl; now rewrite String.eqb_refl.
Qed.


(** X11.  [RemoveService] deletes the service before it removes the
    event-log source: the service is gone exactly when Delete succeeded,
    which is the case when nil is returned but also when the error is the one
    of [eventlog.Remove]; with any other error the registration is as
    before. *)
Theorem remove_deletes_before_it_unregisters_the_log
        (e : Env) (t0 : Z) (before : bool) :
  let tr := calls_of (RemoveService sw) e t0 in
  let res := result_of (RemoveService sw) e t0 in
  let deleted := existsb is_deleted tr in
  registered (serviceName sw) before tr = (if deleted then false else before) /\
  (res = Ret None -> deleted = true) /\
  (forall c err post,
     first_failure is_eventlog_remove tr = Some (c, err, post) ->
     deleted = true /\
     res = Ret (Some ("RemoveEventLogSource() failed: " ++ err))) /\
  (deleted = true ->
   res = Ret None \/
   exists err, res = Ret (Some ("RemoveEventLogSource() failed: " ++ err))).
Proof.
  unfold RemoveService. run_calls.
  all: rewrite ?String.eqb_refl.
  all: split; [reflexivity|split; [|split]].
  all: try (intros _; reflexivity).
  all: try discriminate.
  all: try (intros c err post [= <- <- <-]; split; reflexivity).
  all: try (intros _; left; reflexivity).
  all: intros _; right; eexists; reflexivity.
Qed.

(** X12.  [InstallService] followed by [RemoveService] in the same
    environment, both returning nil: the service is registered in between and
    not registered at the end, whatever was there before; the removal takes
    six calls. *)
Theorem install_then_remove_leaves_nothing
        (e : Env) (t0 : Z) (before : bool) :
  result_of (install_then_remove sw args) e t0 = Ret (None, None) ->
  let tr := calls_of (install_then_remove sw args) e t0 in
  registered (serviceName sw) before tr = false /\
  exists removed,
    tr = (calls_of (InstallService sw args) e t0 ++ removed)%list /\
    List.length removed = 6 /\
    result_of (InstallService sw args) e t0 = Ret None /\
    registered (serviceName sw) before
      (calls_of (InstallService sw args) e t0) = true.
Proof.
  unfold install_then_remove, InstallService, RemoveService, ExePath.
  run_calls; intros [=].
  all: rewrite ?String.eqb_refl.
  all: split; [reflexivity|].
  all: eexists (_ :: _ :: _ :: _ :: _ :: [_]);
    repeat split; reflexivity.
Qed.




Lemma registered_app (name : string) (b : bool) (t1 t2 : list Event) :
  registered name b (t1 ++ t2) = registered name (registered name b t1) t2.
Proof.
  revert b; induction t1 as [|[c r] t1 IH]; intros b; simpl; [reflexivity|].
  destruct c, r; apply IH.
Qed.

Lemma registered_polls (name n : string) (b : bool) (d : time.Duration)
      (flt : nat -> option error) (k : nat) : forall a,
  registered name b
    (flat_map (fun j => [(Sleep d, None); (Query n, flt (S j))]) (seq a k))
  = b.
Proof.
  induction k as [|k IH]; intros a; simpl; [reflexivity|].
  destruct (flt (S a)); apply IH.
Qed.

(** [ControlService] by cases on its first three calls, for the facts that
    hold on every trace. *)
Lemma ControlService_calls (c : svc.Cmd) (to : svc.State) (e : Env) (t0 : Z) :
  let name := serviceName sw in
  let tr := calls_of (ControlService sw c to) e t0 in
  (exists err, tr = [(Connect, Some err)]) \/
  (exists err f, tr = [(Connect, None); (OpenService name, Some err);
                       (Disconnect, f)]) \/
  (exists err f1 f2, tr = [(Connect, None); (OpenService name, None);
                           (Control name c, Some err);
                           (Close name, f1); (Disconnect, f2)]) \/
  (exists k flt f1 f2,
     tr = ([(Connect, None); (OpenService name, None);
            (Control name c, None)]
           ++ flat_map (fun j => [(Sleep (300 * time.Millisecond)%Z, None);
                                  (Query name, flt (S j))]) (seq 0 k)
           ++ [(Close name, f1); (Disconnect, f2)])%list).
Proof.
  intros name tr.
  destruct (fault (e 0%nat)) as [err|] eqn:H0;
    [|destruct (fault (e 1%nat)) as [err|] eqn:H1;
      [|destruct (fault (e 2%nat)) as [err|] eqn:H2]].
  1-3: subst tr; unfold ControlService, calls_of, start_world;
       unfold bind, defer, call, ret;
       cbn -[String.append fmt_d poll];
       rewrite H0; cbn -[String.append fmt_d poll];
       try (rewrite H1; cbn -[String.append fmt_d poll]);
       try (rewrite H2; cbn -[String.append fmt_d poll]).
  - left; eexists; reflexivity.
  - right; left; do 2 eexists; reflexivity.
  - right; right; left; do 3 eexists; reflexivity.
  - destruct (ControlService_spec sw c to e t0 H0 H1 H2)
      as (k & r & _ & Hcalls & _).
    right; right; right. subst tr. rewrite Hcalls.
    exists k, (fun j => fault (e (2 + 2 * j)%nat)). do 2 eexists; reflexivity.
Qed.


(** X14.  [StartService] and [ControlService] never create or delete a
    service: what is registered after them is what was registered before. *)
Theorem start_and_control_leave_the_registration
        (c : svc.Cmd) (to : svc.State) (e : Env) (t0 : Z) (before : bool) :
  registered (serviceName sw) before (calls_of (StartService sw) e t0)
  = before /\
  registered (serviceName sw) before (calls_of (ControlService sw c to) e t0)
  = before.
Proof.
  split.
  - unfold StartService. run_calls; reflexivity.
  - destruct (ControlService_calls c to e t0)
      as [(err & ->)|[(err & f & ->)|[(err & f1 & f2 & ->)|
                                      (k & flt & f1 & f2 & ->)]]];
      try reflexivity.
    simpl. rewrite registered_app, registered_polls. reflexivity.
Qed.


Lemma elapsed_instant (n : nat) : forall e,
  (forall i, delay (e i) = 0%N) -> elapsed e n = 0%Z.
Proof.
  induction n as [|n IH]; intros e H; simpl; [reflexivity|].
  rewrite H, IH; [reflexivity|]. intros i; apply H.
Qed.

(** X15.  When the reply to the control request already reports the
    target state, [ControlService] returns nil without sleeping or querying:
    five calls in all. *)
Theorem control_returns_at_once_in_the_target_state
        (c : svc.Cmd) (to : svc.State) (e : Env) (t0 : Z) :
  fault (e 0%nat) = None -> fault (e 1%nat) = None -> fault (e 2%nat) = None ->
  svc.State_ (status (e 2%nat)) = to ->
  result_of (ControlService sw c to) e t0 = Ret None /\
  calls_of (ControlService sw c to) e t0 =
    [(Connect, None); (OpenService (serviceName sw), None);
     (Control (serviceName sw) c, None);
     (Close (serviceName sw), fault (e 3%nat));
     (Disconnect, fault (e 4%nat))].
Proof.
  intros H0 H1 H2 Hto.
  destruct (ControlService_spec sw c to e t0 H0 H1 H2)
    as (k & r & Hres & Hcalls & Hall & Hcases).
  destruct k as [|k].
  - rewrite Hres, Hcalls. split; [|reflexivity].
    destruct Hcases as [(_ & _ & ->)|[(_ & Hne & _)|(err & Hk & _)]];
      [reflexivity| |lia].
    now contradiction Hne.
  - destruct (Hall 0%nat ltac:(lia)) as (Hne & _).
    now contradiction Hne.
Qed.

(** X16.  When the service never reports the target state and no query
    fails, [ControlService] returns the timeout error, after at most 34
    queries, and after exactly 34 when the calls themselves take no time
    (the check at 10.2 s is the first past the deadline). *)
Theorem control_times_out_when_the_state_never_comes
        (c : svc.Cmd) (to : svc.State) (e : Env) (t0 : Z) :
  fault (e 0%nat) = None -> fault (e 1%nat) = None ->
  never_reaches to e ->
  result_of (ControlService sw c to) e t0 =
    Ret (Some ("timeout waiting for service to go to state=" ++ fmt_d to)) /\
  exists k,
    k <= 34 /\
    List.length (calls_of (ControlService sw c to) e t0) = 5 + 2 * k /\
    ((forall i, delay (e i) = 0%N) -> k = 34).
Proof.
  intros H0 H1 Hnever.
  destruct (Hnever 0%nat) as [H2 _]. simpl in H2.
  destruct (ControlService_spec sw c to e t0 H0 H1 H2)
    as (k & r & Hres & Hcalls & Hall & Hcases).
  destruct (Hnever k) as [Hfk Hsk].
  destruct Hcases as [(_ & Heq & _)|[(_ & _ & Hlate & ->)|(err & _ & Hf & _)]];
    [now contradiction Hsk| |congruence].
  split; [exact Hres|]. exists k.
  assert (Hk : k <= 34).
  { destruct k as [|k]; [lia|].
    destruct (Hall k ltac:(lia)) as (_ & Hck & _).
    pose proof (elapsed_mono 3 (2 * k) e) as Hm.
    unfold time.Millisecond, time.Second in Hck. lia. }
  split; [exact Hk|]. split.
  - rewrite Hcalls, !length_app.
    rewrite flat_map_constant_length with (c := 2) by reflexivity.
    rewrite length_seq. simpl. lia.
  - intros Hinstant.
    rewrite !(elapsed_instant _ e Hinstant) in Hlate.
    unfold time.Millisecond, time.Second in Hlate. lia.
Qed.


Variable unicodeLower : string -> string.

(** X17.  [ManageService] before the dispatch: an error of
    [svc.IsWindowsService] is returned behind "failed to determine if we are
    running in service: " and nothing else is called; inside a service,
    [ManageService] is [RunService(false)] whatever the command line is, and
    the error of [RunService] is not wrapped. *)
Theorem manage_service_in_a_service_ignores_the_arguments
        (e : Env) (t0 : Z) :
  (forall err,
     fault (e 0%nat) = Some err ->
     result_of (ManageService unicodeLower sw args) e t0 =
       Ret (Some ("failed to determine if we are running in service: "
                  ++ err)) /\
     calls_of (ManageService unicodeLower sw args) e t0 =
       [(IsWindowsService, Some err)]) /\
  (fault (e 0%nat) = None -> flag (e 0%nat) = true ->
   forall args',
     ManageService unicodeLower sw args' (start_world e t0) =
     RunService sw false
       {| env := fun n => e (S n);
          now := (t0 + Z.of_N (delay (e 0%nat)))%Z;
          trace := [(IsWindowsService, None)] |}).
Proof.
  assert (Hstart : forall k : Reply -> M (option error),
             bind (call IsWindowsService) k (start_world e t0) =
             k (e 0%nat)
               {| env := fun n => e (S n);
                  now := (t0 + Z.of_N (delay (e 0%nat)))%Z;
                  trace := [(IsWindowsService, fault (e 0%nat))] |}).
  { reflexivity. }
  split.
  - intros err H. unfold ManageService, result_of, calls_of.
    rewrite Hstart, H. split; reflexivity.
  - intros H Hflag args'. unfold ManageService.
    rewrite Hstart, H, Hflag. reflexivity.
Qed.

(** [ManageService] looks at the program name and at the lower case of the
    first argument, at nothing else of the command line. *)
Lemma ManageService_command_line
      (a b : os_Args) (x y : string) (xs ys : list string) (w : World) :
  Args0 a = Args0 b ->
  Args1 a = x :: xs ->
  Args1 b = y :: ys ->
  ToLower unicodeLower x = ToLower unicodeLower y ->
  ManageService unicodeLower sw a w = ManageService unicodeLower sw b w.
Proof.
  intros Hp Hx Hy Hl.
  assert (Hi : InstallService sw a = InstallService sw b).
  { unfold InstallService, ExePath. now rewrite Hp. }
  assert (Hu : forall m, usage a m = usage b m).
  { intros m. unfold usage. now rewrite Hp. }
  unfold ManageService, len.
  rewrite Hx, Hy. cbn [hd List.length Nat.ltb Nat.leb].
  rewrite Hl, Hi, Hu. reflexivity.
Qed.

(** X18.  [ManageService] depends on the command line only through the
    program name and the lower case of the first argument: further arguments
    are ignored, and two first arguments with the same lower case give the
    same run. *)
Theorem manage_service_reads_two_things_of_the_command_line
        (args' : os_Args) (x y : string) (xs ys : list string) (w : World) :
  Args0 args = Args0 args' ->
  Args1 args = x :: xs ->
  Args1 args' = y :: ys ->
  ToLower unicodeLower x = ToLower unicodeLower y ->
  ManageService unicodeLower sw args w = ManageService unicodeLower sw args' w.
Proof. apply ManageService_command_line. Qed.





End MoreManagement.

Section WorkingDirectoryFacts.

Import Wd.

Variable filepath_Dir : string -> string.
Variable os_Executable : string * option error.
Variable os_Chdir : string -> option error.

(** X19.  [GetServiceWrapper] fails exactly when the executable's
    directory is asked for as working directory and [os.Executable] or
    [os.Chdir] fails; it then returns no wrapper and an error that starts
    with "when changing working directory: ".  Otherwise it returns the
    wrapper with the four values given.  [os.Chdir] is called at most once,
    with the directory of the executable, and only when asked for and
    [os.Executable] succeeded. *)
Theorem get_service_wrapper_fails_only_on_the_working_directory
        (name display description : string) (useExe : bool) :
  let '(wrapper, err, dirs) :=
    GetServiceWrapper filepath_Dir os_Executable os_Chdir
      name display description useExe in
  let dir := filepath_Dir (fst os_Executable) in
  (err = None <->
   useExe = false \/ (snd os_Executable = None /\ os_Chdir dir = None)) /\
  (err = None ->
   wrapper = Some {| serviceName := name; serviceDisplayName := display;
                     serviceDescription := description;
                     useExePathAsWorkingDirectory := useExe |}) /\
  (err <> None ->
   wrapper = None /\
   exists cause, err = Some ("when changing working directory: " ++ cause)) /\
  dirs = (if useExe && match snd os_Executable with None => true | _ => false end
          then [dir] else []).
Proof.
  unfold GetServiceWrapper, setExePathAsWorkingDirectory.
  destruct useExe; simpl;
    [destruct (snd os_Executable) as [e1|]; simpl;
     [|destruct (os_Chdir (filepath_Dir (fst os_Executable))) as [e2|];
       simpl]|].
  all: repeat split; intros; try discriminate; try congruence; auto.
  all: try (eexists; reflexivity).
  all: intuition discriminate.
Qed.

End WorkingDirectoryFacts.

(** ** Concrete runs for the further facts *)

Section MoreExecuteRuns.

Import Exec ExecObs.

(** X1 on a run: Schedule fails. *)
Lemma execute_return_codes_run :
  exists b n tr,
    Execute demo [] [InSchedule (Some "no task"); InWaited]
      = Some (PReturned b n, tr) /\
    b = false /\ n = 1%N.
Proof.
  do 3 eexists. split; [reflexivity|].
  destruct (execute_return_codes demo [] (Some "no task") [InWaited]
              _ _ _ eq_refl) as (Hb & Hn & _).
  split; [exact Hb|exact Hn].
Defined.

(** X2 on a run: the task cancels the context, then finishes. *)
Lemma execute_waits_once_before_returning_run :
  exists pc tr,
    Execute demo [] [InSchedule None; InDone; InWaited] = Some (pc, tr) /\
    returned pc = true /\
    count is_waited tr <= 1 /\
    exists pre post,
      tr = (pre ++ Waited :: post)%list /\
      count is_waited pre = 0 /\ count is_return pre = 0 /\
      count is_waited post = 0 /\ count is_return post = 1.
Proof.
  do 2 eexists. split; [reflexivity|]. split; [reflexivity|].
  destruct (execute_waits_once_before_returning demo []
              [InSchedule None; InDone; InWaited] _ _ eq_refl) as [Hle Hret].
  split; [exact Hle|exact (Hret eq_refl)].
Defined.

(** X3 on the same run: no cancel. *)
Lemma execute_cancels_at_most_once_run :
  exists pc tr,
    Execute demo [] [InSchedule None; InDone; InWaited] = Some (pc, tr) /\
    existsb is_ctx_done tr = true /\
    count is_cancel tr = 0.
Proof.
  do 2 eexists. split; [reflexivity|]. split; [reflexivity|].
  exact (proj2 (execute_cancels_at_most_once demo []
                  [InSchedule None; InDone; InWaited] _ _ eq_refl) eq_refl).
Defined.

(** X4 on a run: an Interrogate and a Pause are served. *)
Lemma execute_serves_until_stopped_run :
  Execute demo []
    (InSchedule None
     :: map InReq [request svc.Interrogate; request svc.Pause])
  = Some (PSelect,
          Send startPending :: ScheduleRet None :: Send running
          :: flat_map (served [])
               [request svc.Interrogate; request svc.Pause]) /\
  (PWaitStop = PSelect <-> forallb serving [InReq (request svc.Stop)] = true).
Proof.
  split.
  - exact (proj1 (execute_serves_until_stopped demo [])
             [request svc.Interrogate; request svc.Pause] eq_refl).
  - exact (proj2 (execute_serves_until_stopped demo [])
             [InReq (request svc.Stop)] PWaitStop _ eq_refl).
Defined.

(** X5 on a run: Shutdown. *)
Lemma execute_reports_stop_pending_on_both_exits_run :
  exists tr pre,
    Execute demo [] [InSchedule None; InReq (request svc.Shutdown); InWaited]
      = Some (PReturned false 0%N, tr) /\
    tr = (pre ++ [Waited; Send stopPending; Return false 0%N])%list.
Proof.
  destruct (execute_reports_stop_pending_on_both_exits demo []
              [InReq (request svc.Shutdown); InWaited] false 0%N _ eq_refl)
    as (pre & Htr & _).
  eexists _, pre. split; [reflexivity|exact Htr].
Defined.

End MoreExecuteRuns.

Section MoreManagementRuns.

Import Mgr MgrObs.

(** X7 on a run: the program is found as it is. *)
Lemma exe_path_returns_a_file_it_probed_run :
  exists p,
    result_of (ExePath (cli [])) fresh_install 0 = Ret (p, None) /\
    last (calls_of (ExePath (cli [])) fresh_install 0) (Abs "", None)
    = (Stat p, None).
Proof.
  destruct (exe_path_returns_a_file_it_probed (cli []) fresh_install 0)
    as (p & err & Hres & _ & _ & _ & _ & Hok).
  assert (Herr : err = None).
  { vm_compute in Hres. now injection Hres as _ <-. }
  subst err. exists p. split; [exact Hres|exact (proj1 (Hok eq_refl))].
Defined.

(** X8 on a run: "demo" is a directory and "demo.exe" is missing. *)
Lemma exe_path_reports_the_last_probe_run :
  let e := script [path_is "C:\svc\demo";
                   flagged;
                   failing "The system cannot find the file specified."] in
  result_of (ExePath (cli [])) e 0
    = Ret ("", Some "The system cannot find the file specified.") /\
  Ext "C:\svc\demo" = "" /\
  List.length (calls_of (ExePath (cli [])) e 0) = 3.
Proof.
  intros e. split; [reflexivity|].
  destruct (exe_path_reports_the_last_probe (cli []) e 0 ""
              "The system cannot find the file specified." eq_refl)
    as [([=] & _)|[(Hext & _)|(Hext & Hlen & _)]].
  - now contradiction Hext.
  - split; [exact Hext|exact Hlen].
Defined.

(** X9 on a run: the path cannot be made absolute. *)
Lemma install_needs_the_executable_run :
  result_of (InstallService demo (cli ["install"]))
    (script [failing "no working directory"]) 0
    = Ret (Some "no working directory") /\
  calls_of (InstallService demo (cli ["install"]))
    (script [failing "no working directory"]) 0
    = [(Abs "C:\svc\demo.exe", Some "no working directory")].
Proof.
  destruct (install_needs_the_executable demo (cli ["install"])
              (script [failing "no working directory"]) 0 ""
              "no working directory" eq_refl) as (Hres & Hcalls & _).
  split; [exact Hres|]. rewrite Hcalls. reflexivity.
Defined.

(** X10 on a run: a plain install. *)
Lemma install_success_registers_the_service_run :
  result_of (InstallService demo (cli ["install"])) fresh_install 0 = Ret None /\
  registered "demo" false
    (calls_of (InstallService demo (cli ["install"])) fresh_install 0) = true.
Proof.
  assert (H : result_of (InstallService demo (cli ["install"]))
                fresh_install 0 = Ret None) by (vm_compute; reflexivity).
  split; [exact H|].
  destruct (install_success_registers_the_service demo (cli ["install"])
              fresh_install 0 false H) as (_ & _ & _ & _ & _ & _ & Hreg).
  exact Hreg.
Defined.

(** X11 on a run: the event-log source cannot be removed. *)
Lemma remove_deletes_before_it_unregisters_the_log_run :
  let e := script [ok; ok; ok; failing "Access is denied."] in
  result_of (RemoveService demo) e 0
    = Ret (Some "RemoveEventLogSource() failed: Access is denied.") /\
  registered "demo" true (calls_of (RemoveService demo) e 0) = false.
Proof.
  intros e.
  destruct (remove_deletes_before_it_unregisters_the_log demo e 0 true)
    as (Hreg & _ & Hlog & _).
  destruct (Hlog _ _ _ eq_refl) as (Hdel & Hres).
  split; [exact Hres|].
  exact (eq_trans Hreg
           (f_equal (fun b : bool => if b then false else true) Hdel)).
Defined.

(** X12 on a run: install, then remove. *)
Lemma install_then_remove_leaves_nothing_run :
  registered "demo" true
    (calls_of (install_then_remove demo (cli ["install"])) fresh_install 0)
  = false.
Proof.
  assert (H : result_of (install_then_remove demo (cli ["install"]))
                fresh_install 0 = Ret (None, None))
    by (vm_compute; reflexivity).
  exact (proj1 (install_then_remove_leaves_nothing demo (cli ["install"])
                  fresh_install 0 true H)).
Defined.

(** X15 on a run: the service is already paused. *)
Lemma control_returns_at_once_in_the_target_state_run :
  result_of (ControlService demo svc.Pause svc.Paused)
    (script [ok; ok; in_state svc.Paused 0]) 0 = Ret None.
Proof.
  exact (proj1 (control_returns_at_once_in_the_target_state demo svc.Pause
                  svc.Paused (script [ok; ok; in_state svc.Paused 0]) 0
                  eq_refl eq_refl eq_refl eq_refl)).
Defined.

(** X16 on a run: a service stuck in StartPending is asked to stop. *)
Lemma control_times_out_when_the_state_never_comes_run :
  result_of (ControlService demo svc.Stop svc.Stopped) never_running 0
  = Ret (Some "timeout waiting for service to go to state=1").
Proof.
  apply (control_times_out_when_the_state_never_comes demo svc.Stop
           svc.Stopped never_running 0 eq_refl eq_refl).
  intros j. split; [reflexivity|discriminate].
Defined.

(** X17 on a run: inside a service, with a command line that says stop. *)
Lemma manage_service_in_a_service_ignores_the_arguments_run :
  let e := script [flagged] in
  ManageService (fun s => s) demo (cli ["stop"]) (start_world e 0) =
  RunService demo false
    {| env := fun n => e (S n); now := 0;
       trace := [(IsWindowsService, None)] |}.
Proof.
  intros e.
  exact (proj2 (manage_service_in_a_service_ignores_the_arguments
                  demo (cli []) (fun s => s) e 0)
           eq_refl eq_refl (cli ["stop"])).
Defined.

(** X18 on a run: one more argument, another case. *)
Lemma manage_service_reads_two_things_of_the_command_line_run :
  ManageService (fun s => s) demo (cli ["STOP"; "now"])
    (start_world (script []) 0) =
  ManageService (fun s => s) demo (cli ["stop"]) (start_world (script []) 0).
Proof.
  exact (manage_service_reads_two_things_of_the_command_line
           demo (cli ["STOP"; "now"]) (fun s => s) (cli ["stop"])
           "STOP" "stop" ["now"] [] _ eq_refl eq_refl eq_refl eq_refl).
Defined.


End MoreManagementRuns.

Section WorkingDirectoryRuns.

Import Wd.

(** X19 on a run: the directory cannot be entered. *)
Lemma get_service_wrapper_fails_only_on_the_working_directory_run :
  fst (fst (GetServiceWrapper (fun _ => "C:\svc") ("C:\svc\demo.exe", None)
              (fun _ => Some "Access is denied.")
              "demo" "Demo" "a demo service" true)) = None.
Proof.
  pose proof (get_service_wrapper_fails_only_on_the_working_directory
                (fun _ => "C:\svc") ("C:\svc\demo.exe", None)
                (fun _ => Some "Access is denied.")
                "demo" "Demo" "a demo service" true) as H.
  destruct (GetServiceWrapper _ _ _ _ _ _ _) as [[wrapper err] dirs] eqn:E.
  destruct H as (_ & _ & Hfail & _).
  apply Hfail.
  vm_compute in E. injection E as _ <- _. discriminate.
Defined.

End WorkingDirectoryRuns.
